(** * Fresh-Weather: the forecast formatter, the weather client, the
      per-chat forecast store and the chat handlers of [bot.py].

    The Python functions are embedded as Rocq functions over an inductive
    type of the values [json.load] / [requests.Response.json] can produce.
    Exceptions are explicit ([result]); the store file, the outbox of sent
    messages and the outcomes of the HTTP request and of the file write are
    explicit state and explicit inputs. *)

From Stdlib Require Import ZArith Floats Ascii.
From stdpp Require Import base gmap strings pretty list.

Set Warnings "-inexact-float,-register-all".
Open Scope Z_scope.

(** ** Python values and exceptions *)

Module Py.

(** What [json.load] yields: [None], [bool], [int], [float] (binary64,
    including [nan] and the infinities), [str] (kept as its UTF-8 bytes),
    [list] and [dict] with string keys. *)
Inductive pyval : Type :=
| PNone
| PBool (b : bool)
| PInt (z : Z)
| PFloat (f : float)
| PStr (s : string)
| PList (l : list pyval)
| PDict (d : gmap string pyval).

(** The exception classes that occur; all of them derive from [Exception],
    so every [except Exception] clause catches each of them. *)
Inductive exn : Type :=
| TypeError | ValueError | IndexError | KeyError | AttributeError
| OverflowError | OSError | JSONDecodeError
| ConnectionError | Timeout | HTTPError.

Inductive result (A : Type) : Type :=
| Ok (a : A)
| Raise (e : exn).
Arguments Ok {A} a.
Arguments Raise {A} e.

Definition rbind {A B} (r : result A) (k : A → result B) : result B :=
  match r with Ok a => k a | Raise e => Raise e end.

(** [try: body  except Exception: handler] for pure code. *)
Definition try_except {A} (body : result A) (handler : exn → result A) : result A :=
  match body with Ok a => Ok a | Raise e => handler e end.

Definition returns {A} (r : result A) : Prop := ∃ a, r = Ok a.
Definition raises {A} (r : result A) : Prop := ∃ e, r = Raise e.

Definition nl : string := String "010"%char EmptyString.

(** *** Sequences: [len(x)] and [x[i]] *)

(** A byte 10xxxxxx continues a code point. *)
Definition is_continuation (a : ascii) : bool :=
  let n := Z.of_nat (nat_of_ascii a) in (128 <=? n) && (n <? 192).

Definition continues (s : string) : bool :=
  match s with String b _ => is_continuation b | EmptyString => false end.

(** The code points of a [str], each as its own UTF-8 encoded string. *)
Fixpoint code_points (s : string) : list string :=
  match s with
  | EmptyString => []
  | String a rest =>
      match code_points rest with
      | c :: cs =>
          if continues rest then String a c :: cs
          else String a EmptyString :: c :: cs
      | [] => [String a EmptyString]
      end
  end.

Definition py_len (v : pyval) : result Z :=
  match v with
  | PList l => Ok (Z.of_nat (length l))
  | PStr s => Ok (Z.of_nat (length (code_points s)))
  | PDict d => Ok (Z.of_nat (size d))
  | PNone | PBool _ | PInt _ | PFloat _ => Raise TypeError
  end.

(** Indexing a sequence with an [int]: a negative index counts from the
    end; outside [-len, len) it is an [IndexError]. *)
Definition seq_getitem {A} (l : list A) (idx : Z) : result A :=
  let n := Z.of_nat (length l) in
  let i := if idx <? 0 then idx + n else idx in
  if (0 <=? i) && (i <? n)
  then match l !! Z.to_nat i with Some x => Ok x | None => Raise IndexError end
  else Raise IndexError.

(** [v[idx]] for an [int] index.  The keys of a JSON object are strings, so
    an [int] is never among them. *)
Definition py_getitem (v : pyval) (idx : Z) : result pyval :=
  match v with
  | PList l => seq_getitem l idx
  | PStr s => rbind (seq_getitem (code_points s) idx) (λ c, Ok (PStr c))
  | PDict _ => Raise KeyError
  | PNone | PBool _ | PInt _ | PFloat _ => Raise TypeError
  end.

(** [d.get(key, default)]; anything but a [dict] has no [get]. *)
Definition py_get (v : pyval) (key : string) (dflt : pyval) : result pyval :=
  match v with
  | PDict d => Ok (default dflt (d !! key))
  | _ => Raise AttributeError
  end.

(** [store[key] = value]: only a [dict] takes a string key. *)
Definition py_setitem (v : pyval) (key : string) (value : pyval) : result pyval :=
  match v with
  | PDict d => Ok (PDict (<[key := value]> d))
  | _ => Raise TypeError
  end.

(** Truth value, as tested by [if last:]. *)
Definition py_truthy (v : pyval) : bool :=
  match v with
  | PNone => false
  | PBool b => b
  | PInt z => negb (z =? 0)
  | PFloat f => negb (PrimFloat.eqb f 0%float)
  | PStr s => negb (String.eqb s "")
  | PList l => negb (Nat.eqb (length l) 0)
  | PDict d => negb (Nat.eqb (size d) 0)
  end.

(** *** Numbers *)

(** [float(z)]: the nearest binary64, [OverflowError] beyond its range. *)
Definition float_of_int (z : Z) : result spec_float :=
  match binary_normalize 53 1024 z 0 false with
  | S754_infinity _ => Raise OverflowError
  | x => Ok x
  end.

(** The integer nearest to [m * 2^e], ties to even ([m >= 0]). *)
Definition round_half_even (m e : Z) : Z :=
  if 0 <=? e then m * 2 ^ e
  else
    let d := 2 ^ (- e) in
    let q := m / d in
    match 2 * (m mod d) ?= d with
    | Lt => q
    | Gt => q + 1
    | Eq => if Z.even q then q else q + 1
    end.

Definition sign_plus (s : bool) : string := if s then "-" else "+".

(** [format(x, "+.0f")] for a float: sign always shown, no decimals. *)
Definition float_format_plus_0f (x : spec_float) : string :=
  match x with
  | S754_nan => "+nan"
  | S754_infinity s => sign_plus s +:+ "inf"
  | S754_zero s => sign_plus s +:+ "0"
  | S754_finite s m e => sign_plus s +:+ pretty (round_half_even (Z.pos m) e)
  end.

(** [format(val, "+.0f")]: floats directly, [int] and [bool] through
    [float(val)]; every other type rejects the format code. *)
Definition py_format_plus_0f (val : pyval) : result string :=
  match val with
  | PFloat f => Ok (float_format_plus_0f (Prim2SF f))
  | PInt z => rbind (float_of_int z) (λ x, Ok (float_format_plus_0f x))
  | PBool b => Ok (float_format_plus_0f (Prim2SF (if b then 1%float else 0%float)))
  | PStr _ => Raise ValueError
  | PNone | PList _ | PDict _ => Raise TypeError
  end.

(** The integer a float is equal to, if any: [3.0 == 3] and both hash
    alike, so a dict with [int] keys finds [3] under the key [3.0]. *)
Definition float_as_int (x : spec_float) : option Z :=
  match x with
  | S754_zero _ => Some 0
  | S754_finite s m e =>
      let v :=
        if 0 <=? e then Some (Z.pos m * 2 ^ e)
        else if Z.pos m mod 2 ^ (- e) =? 0 then Some (Z.pos m / 2 ^ (- e))
        else None in
      (λ a, if s then - a else a) <$> v
  | S754_infinity _ | S754_nan => None
  end.

(** The key under which a value is looked up in a dict with [int] keys:
    [Ok None] for a hashable value equal to no [int]; lists and dicts are
    unhashable. *)
Definition int_key (v : pyval) : result (option Z) :=
  match v with
  | PInt z => Ok (Some z)
  | PBool b => Ok (Some (if b then 1 else 0))
  | PFloat f => Ok (float_as_int (Prim2SF f))
  | PNone | PStr _ => Ok None
  | PList _ | PDict _ => Raise TypeError
  end.

(** *** [datetime.strptime(s, "%Y-%m-%d").strftime("%d.%m.%Y")]

    [strptime] matches the regular expression built from the format and
    then wants the whole string consumed and a date that exists.  The digits
    are the ASCII digits (Python's [\d] takes the other decimal digits of
    Unicode too, for the year and the second digit of the day).  [%Y] prints
    the year without padding, as the C library of Linux does. *)

Definition digit_of (a : ascii) : option Z :=
  let n := Z.of_nat (nat_of_ascii a) in
  if (48 <=? n) && (n <=? 57) then Some (n - 48) else None.

Definition between (lo hi x : Z) : bool := (lo <=? x) && (x <=? hi).

(** The ways a two-digit resp. one-digit alternative matches a prefix. *)
Definition two_digits (p1 p2 : Z → bool) (s : string) : list (Z * string) :=
  match s with
  | String a (String b rest) =>
      match digit_of a, digit_of b with
      | Some x, Some y => if p1 x && p2 y then [(10 * x + y, rest)] else []
      | _, _ => []
      end
  | _ => []
  end.

Definition one_digit (p : Z → bool) (s : string) : list (Z * string) :=
  match s with
  | String a rest =>
      match digit_of a with
      | Some x => if p x then [(x, rest)] else []
      | None => []
      end
  | _ => []
  end.

Definition literal (c : ascii) (s : string) : list string :=
  match s with
  | String a rest => if Ascii.eqb a c then [rest] else []
  | _ => []
  end.

(** [%Y] is four digits. *)
Definition year_group (s : string) : list (Z * string) :=
  match s with
  | String a (String b (String c (String d rest))) =>
      match digit_of a, digit_of b, digit_of c, digit_of d with
      | Some x, Some y, Some z, Some w =>
          [(1000 * x + 100 * y + 10 * z + w, rest)]
      | _, _, _, _ => []
      end
  | _ => []
  end.

(** [%m] is [1[0-2]|0[1-9]|[1-9]], alternatives tried in this order. *)
Definition month_group (s : string) : list (Z * string) :=
  two_digits (Z.eqb 1) (between 0 2) s
  ++ two_digits (Z.eqb 0) (between 1 9) s
  ++ one_digit (between 1 9) s.

(** [%d] is [3[0-1]|[1-2]\d|0[1-9]|[1-9]| [1-9]]. *)
Definition day_group (s : string) : list (Z * string) :=
  two_digits (Z.eqb 3) (between 0 1) s
  ++ two_digits (between 1 2) (between 0 9) s
  ++ two_digits (Z.eqb 0) (between 1 9) s
  ++ one_digit (between 1 9) s
  ++ (r ← literal " " s; one_digit (between 1 9) r).

(** The first way the whole pattern matches a prefix of [s], with what is
    left of [s] after it. *)
Definition match_ymd (s : string) : option (Z * Z * Z * string) :=
  head ('(y, r1) ← year_group s;
        r2 ← literal "-" r1;
        '(m, r3) ← month_group r2;
        r4 ← literal "-" r3;
        '(d, r5) ← day_group r4;
        [(y, m, d, r5)]).

Definition is_leap (y : Z) : bool :=
  (y mod 4 =? 0) && (negb (y mod 100 =? 0) || (y mod 400 =? 0)).

Definition days_in_month (y m : Z) : Z :=
  if m =? 2 then (if is_leap y then 29 else 28)
  else if (m =? 4) || (m =? 6) || (m =? 9) || (m =? 11) then 30
  else 31.

Definition strptime_ymd (s : string) : result (Z * Z * Z) :=
  match match_ymd s with
  | None => Raise ValueError
  | Some (y, m, d, rest) =>
      if negb (String.eqb rest "") then Raise ValueError
      else if (1 <=? y) && (d <=? days_in_month y m) then Ok (y, m, d)
      else Raise ValueError
  end.

Definition pad2 (z : Z) : string :=
  if z <? 10 then "0" +:+ pretty z else pretty z.

Definition strftime_dmy (date : Z * Z * Z) : string :=
  let '(y, m, d) := date in
  pad2 d +:+ "." +:+ pad2 m +:+ "." +:+ pretty y.

(** [strptime] takes a [str] only.  The digits recognised are the ASCII
    ones; Python also reads other Unicode decimal digits, so statements
    about the date shown are made for ASCII strings. *)
Definition reformat_date (v : pyval) : result string :=
  match v with
  | PStr s => rbind (strptime_ymd s) (λ date, Ok (strftime_dmy date))
  | _ => Raise TypeError
  end.

End Py.

Import Py.

#[global] Instance result_ret : MRet result := λ A a, Ok a.
#[global] Instance result_bind : MBind result := λ A B k r, rbind r k.

(** [int(s)] for a [str]: surrounding whitespace is dropped, then an
    optional sign and decimal digits, single underscores allowed between
    digits.  Only ASCII whitespace and digits are recognised here, and the
    limit of 4300 digits that CPython puts on the conversion is not part of
    it: statements that depend on either are made for ASCII strings and
    for integers of at most 4300 digits. *)
Module IntOfStr.

Definition is_space (a : ascii) : bool :=
  let n := Z.of_nat (nat_of_ascii a) in (n =? 32) || between 9 13 n.

Fixpoint lstrip (s : string) : string :=
  match s with
  | String a rest => if is_space a then lstrip rest else s
  | EmptyString => EmptyString
  end.

Fixpoint rstrip (s : string) : string :=
  match s with
  | EmptyString => EmptyString
  | String a rest =>
      match rstrip rest with
      | EmptyString => if is_space a then EmptyString else String a EmptyString
      | r => String a r
      end
  end.

Fixpoint digits (s : string) (acc : Z) (after_digit : bool) : option Z :=
  match s with
  | EmptyString => if after_digit then Some acc else None
  | String a rest =>
      match digit_of a with
      | Some d => digits rest (10 * acc + d) true
      | None =>
          if Ascii.eqb a "_" && after_digit then digits rest acc false
          else None
      end
  end.

Definition py_int (s : string) : result Z :=
  let body := rstrip (lstrip s) in
  let '(neg, ds) :=
    match body with
    | String "-" r => (true, r)
    | String "+" r => (false, r)
    | _ => (false, body)
    end in
  match digits ds 0 false with
  | Some n => Ok (if neg then - n else n)
  | None => Raise ValueError
  end.

End IntOfStr.
Import IntOfStr.

(** [s.split(":", 1)] *)
Fixpoint split_colon_once (s : string) : list string :=
  match s with
  | EmptyString => [EmptyString]
  | String a rest =>
      if Ascii.eqb a ":" then [EmptyString; rest]
      else match split_colon_once rest with
           | h :: t => String a h :: t
           | [] => []
           end
  end.

(** ** The world outside the process *)

(** The file [STORE_FILE]: missing; present but not openable for reading;
    readable but not JSON; or holding a JSON document, kept as the value
    [json.load] returns for it ([json.dump] followed by [json.load] gives the
    value back).  A dict is a map from keys to values: the order in which the
    file lists the keys is not part of the state. *)
Inductive file_state : Type :=
| FileAbsent
| FileUnreadable
| FileCorrupt
| FileDoc (v : pyval).

(** What happens when the store is written: the document is written in
    full; [open(STORE_FILE, "w")] fails and the file stays as it was; or the
    file is opened, which truncates it, and [json.dump], which writes piece
    by piece, fails before the document is complete (the disk is full, or a
    string holds a lone surrogate, which the utf-8 encoder rejects). *)
Inductive write_outcome : Type :=
| WriteOk
| WriteRefused
| WriteBrokenOff.

(** What [requests.get(url, params=params, timeout=10)] meets: no
    connection, no answer within the timeout, or a response with its status
    code and its body ([None] when the body is not JSON). *)
Inductive http_outcome : Type :=
| NetworkFailure
| RequestTimeout
| Response (status : Z) (body : option pyval).

Inductive keyboard : Type :=
| main_kb          (* the reply keyboard with the three buttons *)
| make_inline_kb.  (* the inline keyboard "day:0", "day:1", "refresh" *)

Record message : Type := Message {
  msg_chat : Z;
  msg_text : string;
  msg_markdown : bool;
  msg_markup : option keyboard
}.

Record world : Type := World {
  store_file : file_state;
  outbox : list message
}.

(** What one handler run meets: the outcome of its request, the outcome of
    its write and the reading of the clock, [datetime.utcnow().isoformat()]. *)
Record environment : Type := Environment {
  http : http_outcome;
  write : write_outcome;
  utcnow : string
}.

(** Code that may raise and that reads and changes the world; the changes
    made before an exception stay. *)
Definition M (A : Type) : Type := world → result A * world.

#[global] Instance M_ret : MRet M := λ A a w, (Ok a, w).
#[global] Instance M_bind : MBind M := λ A B k m w,
  match m w with
  | (Ok a, w') => k a w'
  | (Raise e, w') => (Raise e, w')
  end.

Definition lift {A} (r : result A) : M A := λ w, (r, w).

(** [try: body  except Exception: handler] *)
Definition try_exceptM {A} (body : M A) (handler : exn → M A) : M A := λ w,
  match body w with
  | (Ok a, w') => (Ok a, w')
  | (Raise e, w') => handler e w'
  end.

Definition path_exists : M bool := λ w,
  (Ok (match store_file w with FileAbsent => false | _ => true end), w).

(** [with open(STORE_FILE, "r", encoding="utf-8") as f: json.load(f)] *)
Definition read_json : M pyval := λ w,
  (match store_file w with
   | FileAbsent | FileUnreadable => Raise OSError
   | FileCorrupt => Raise JSONDecodeError
   | FileDoc v => Ok v
   end, w).

(** [with open(STORE_FILE, "w", encoding="utf-8") as f: json.dump(store, f, ...)] *)
Definition write_json (o : write_outcome) (store : pyval) : M unit := λ w,
  match o with
  | WriteOk => (Ok (), World (FileDoc store) (outbox w))
  | WriteRefused => (Raise OSError, w)
  | WriteBrokenOff => (Raise OSError, World FileCorrupt (outbox w))
  end.

(** [message.answer] / [bot.send_message]; the transport delivers.  The
    typing indicator and [answer_callback_query] leave no message and are
    left out. *)
Definition send (chat_id : Z) (text : string) (markdown : bool)
    (markup : option keyboard) : M unit := λ w,
  (Ok (), World (store_file w) (outbox w ++ [Message chat_id text markdown markup])).

(** [sub in s] *)
Fixpoint contains (s sub : string) : bool :=
  String.prefix sub s ||
  match s with
  | EmptyString => false
  | String _ rest => contains rest sub
  end.

(** ** Sample inputs *)

(** The day of the scenario: one date with all five values. *)
Definition scenario_fields : gmap string pyval := {[
  "time" := PList [PStr "2024-03-05"];
  "temperature_2m_max" := PList [PFloat 5.2];
  "temperature_2m_min" := PList [PInt (-3)];
  "precipitation_sum" := PList [PInt 0];
  "weathercode" := PList [PInt 3];
  "windspeed_10m_max" := PList [PInt 12]
]}.

Definition scenario_day : pyval := PDict scenario_fields.

(** A payload of the provider with this one day, and its full message. *)
Definition sample_api : pyval := PDict {[ "daily" := scenario_day ]}.

Definition sample_text : string :=
  "*Сегодня — 05.03.2024*" +:+ nl +:+ "Пасмурно" +:+ nl
  +:+ "Макс: +5°C, мин: -3°C" +:+ nl +:+ "Осадки: 0 мм" +:+ nl
  +:+ "Ветер: 12 м/с" +:+ nl +:+ nl
  +:+ "*Завтра*" +:+ nl +:+ "Нет данных." +:+ nl +:+ nl +:+ nl
  +:+ "Данные: Open-Meteo.com".

(** The entry of another chat, and a store that holds it under "2". *)
Definition other_entry : pyval :=
  PDict {[ "ts" := PStr "2024-03-04T08:00:00Z"; "daily" := PDict ∅; "text" := PStr "old" ]}.

Definition other_store : world := World (FileDoc (PDict {[ "2" := other_entry ]})) [].

Definition empty_world : world := World FileAbsent [].

(** A store file that holds the JSON array [[1]]. *)
Definition array_store : world := World (FileDoc (PList [PInt 1])) [].

(** A store file that cannot be parsed, and a handler run whose request
    returns the sample payload and whose write goes through. *)
Definition corrupt_world : world := World FileCorrupt [].

Definition sample_env : environment :=
  Environment (Response 200 (Some sample_api)) WriteOk "2024-03-05T10:00:00".

Definition sample_entry : pyval := PDict {[
  "ts" := PStr "2024-03-05T10:00:00Z"; "daily" := scenario_day; "text" := PStr sample_text
]}.

(** A date without any of the five value arrays. *)
Definition dates_only_fields : gmap string pyval :=
  {[ "time" := PList [PStr "2024-03-05"] ]}.

Definition dates_only : pyval := PDict dates_only_fields.

Definition dates_only_api : pyval := PDict {[ "daily" := dates_only ]}.

(** A weather code that is a JSON array. *)
Definition code_is_array : pyval := PDict {[
  "time" := PList [PStr "2024-03-05"];
  "weathercode" := PList [PList [PInt 3]]
]}.

(** Some rendering of floats and containers; no statement depends on it. *)
Definition sample_repr : pyval → string := λ _, "".



(** ** The bot *)

Section Bot.

(** [str(x)] of a float, a list or a dict is the interpreter's [repr]
    (shortest round-trip digits, quoting of nested strings, key order); it is
    a parameter of the development. *)
Variable py_repr : pyval → string.

(** [f"{v}"] *)
Definition py_str (v : pyval) : string :=
  match v with
  | PNone => "None"
  | PBool true => "True"
  | PBool false => "False"
  | PInt z => pretty z
  | PStr s => s
  | PFloat _ | PList _ | PDict _ => py_repr v
  end.

Definition WEATHER_CODES : gmap Z string := list_to_map [
  (0, "Ясно"); (1, "Преимущественно ясно"); (2, "Переменная облачность"); (3, "Пасмурно");
  (45, "Туман"); (48, "Изморозь"); (51, "Морось лёгкая"); (53, "Морось"); (55, "Морось интенсивная");
  (61, "Дождь лёгкий"); (63, "Дождь"); (65, "Дождь сильный"); (71, "Снег лёгкий"); (73, "Снег");
  (75, "Снег сильный"); (80, "Ливни лёгкие"); (81, "Ливни"); (82, "Ливни сильные");
  (95, "Гроза"); (96, "Гроза с градом"); (99, "Гроза с сильным градом")
].

(** [WEATHER_CODES.get(code, dflt)] *)
Definition WEATHER_CODES_get (code : pyval) (dflt : string) : result string :=
  k ← int_key code;
  mret (default dflt (k ≫= (WEATHER_CODES !!.))).

(** *** Weather client *)

(** [r = requests.get(...); r.raise_for_status(); return r.json()]:
    [raise_for_status] raises for the statuses 400 to 599. *)
Definition get_weather (o : http_outcome) : result pyval :=
  match o with
  | NetworkFailure => Raise ConnectionError
  | RequestTimeout => Raise Timeout
  | Response status body =>
      if (400 <=? status) && (status <? 600) then Raise HTTPError
      else match body with
           | Some api_data => Ok api_data
           | None => Raise JSONDecodeError
           end
  end.

(** *** Forecast formatter *)

Definition _format_temp (val : pyval) : string :=
  match py_format_plus_0f val with
  | Ok s => s +:+ "°C"
  | Raise _ => "—"
  end.

(** [render(xs[idx]) if idx < len(xs) else "—"] *)
Definition at_index (xs : pyval) (idx : Z) (render : pyval → result string) : result string :=
  n ← py_len xs;
  if idx <? n then x ← py_getitem xs idx; render x else mret "—".

(** [f"*{label}*\nНет данных.\n"] and the block of five lines. *)
Definition no_data_block (label : string) : string :=
  "*" +:+ label +:+ "*" +:+ nl +:+ "Нет данных." +:+ nl.

Definition day_block (label date_str desc tmax_val tmin_val precip_val wind_val : string) : string :=
  "*" +:+ label +:+ " — " +:+ date_str +:+ "*" +:+ nl
  +:+ desc +:+ nl
  +:+ "Макс: " +:+ tmax_val +:+ ", мин: " +:+ tmin_val +:+ nl
  +:+ "Осадки: " +:+ precip_val +:+ nl
  +:+ "Ветер: " +:+ wind_val +:+ nl.

Definition _build_day_block_from_daily (daily : pyval) (idx : Z) (label : string) : result string :=
  dates ← py_get daily "time" (PList []);
  tmax ← py_get daily "temperature_2m_max" (PList []);
  tmin ← py_get daily "temperature_2m_min" (PList []);
  precip ← py_get daily "precipitation_sum" (PList []);
  wcode ← py_get daily "weathercode" (PList []);
  wind ← py_get daily "windspeed_10m_max" (PList []);
  n ← py_len dates;
  if idx >=? n then mret (no_data_block label)
  else
    date_str ← try_except
      (d ← py_getitem dates idx; s ← reformat_date d; mret (PStr s))
      (λ _, py_getitem dates idx);
    desc ← at_index wcode idx (λ c, WEATHER_CODES_get c "—");
    tmax_val ← at_index tmax idx (λ v, mret (_format_temp v));
    tmin_val ← at_index tmin idx (λ v, mret (_format_temp v));
    precip_val ← at_index precip idx (λ v, mret (py_str v +:+ " мм"));
    wind_val ← at_index wind idx (λ v, mret (py_str v +:+ " м/с"));
    mret (day_block label (py_str date_str) desc tmax_val tmin_val precip_val wind_val).

Definition build_full_forecast_message (api_data : pyval) : result string :=
  daily ← py_get api_data "daily" (PDict ∅);
  today ← _build_day_block_from_daily daily 0 "Сегодня";
  tomorrow ← _build_day_block_from_daily daily 1 "Завтра";
  mret (today +:+ nl +:+ tomorrow +:+ nl +:+ nl +:+ "Данные: Open-Meteo.com").

(** *** Forecast store *)

Definition _load_store : M pyval :=
  present ← path_exists;
  if negb present then mret (PDict ∅)
  else try_exceptM read_json (λ _, mret (PDict ∅)).

Definition _save_store (o : write_outcome) (store : pyval) : M unit :=
  try_exceptM (write_json o store) (λ _, mret ()).

Definition cached_entry (ts : string) (daily : pyval) (text : string) : pyval :=
  PDict {[ "ts" := PStr ts; "daily" := daily; "text" := PStr text ]}.

Definition save_last_forecast (o : write_outcome) (now : string)
    (chat_id : Z) (api_data : pyval) : M unit :=
  store ← _load_store;
  daily ← lift (py_get api_data "daily" (PDict ∅));
  text ← lift (build_full_forecast_message api_data);
  store' ← lift (py_setitem store (pretty chat_id)
                   (cached_entry (now +:+ "Z") daily text));
  _save_store o store'.

Definition get_last_forecast (chat_id : Z) : M pyval :=
  store ← _load_store;
  lift (py_get store (pretty chat_id) PNone).

(** *** Handlers *)

(** The handler of [/weather].  The first [message.answer] of the source
    ends in a fourth argument, [reply_markup_inline := None], a positional
    argument after keyword arguments, which Python does not accept; the call
    is read without it.  The branch taken when the request fails does not
    pass through this call. *)
Definition cmd_weather (env : environment) (chat_id : Z) : M unit :=
  try_exceptM
    (api_data ← lift (get_weather (http env));
     _ ← save_last_forecast (write env) (utcnow env) chat_id api_data;
     text ← lift (build_full_forecast_message api_data);
     _ ← send chat_id text true (Some main_kb);
     send chat_id "Выберите:" false (Some make_inline_kb))
    (λ _, send chat_id "Не удалось получить прогноз. Попробуйте позже." false (Some main_kb)).

(** The filter of the day callback: [c.data and c.data.startswith("day:")]. *)
Definition is_day_callback (data : string) : bool := String.prefix "day:" data.

(** ["Сегодня" if idx == 0 else "Завтра"] *)
Definition day_label (idx : Z) : string := if idx =? 0 then "Сегодня" else "Завтра".

Definition cb_day_callback (env : environment) (chat_id : Z) (data : string) : M unit :=
  match split_colon_once data with
  | [_; idx_str] =>
      match py_int idx_str with
      | Raise _ => send chat_id "Некорректная кнопка." false None
      | Ok idx =>
          last ← get_last_forecast chat_id;
          if py_truthy last then
            daily ← lift (py_get last "daily" (PDict ∅));
            block ← lift (_build_day_block_from_daily daily idx (day_label idx));
            send chat_id block true (Some main_kb)
          else
            try_exceptM
              (api_data ← lift (get_weather (http env));
               _ ← save_last_forecast (write env) (utcnow env) chat_id api_data;
               daily ← lift (py_get api_data "daily" (PDict ∅));
               block ← lift (_build_day_block_from_daily daily idx (day_label idx));
               send chat_id block true (Some main_kb))
              (λ _, send chat_id "Не удалось получить прогноз." false (Some main_kb))
      end
  | _ => lift (Raise ValueError)
  end.

(** What [_load_store] returns for a file, what [_save_store] leaves in the
    file, and the dict [save_last_forecast] hands to [_save_store]. *)
Definition loaded (fs : file_state) : pyval :=
  match fs with
  | FileDoc v => v
  | FileAbsent | FileUnreadable | FileCorrupt => PDict ∅
  end.

Definition written (o : write_outcome) (store : pyval) (fs : file_state) : file_state :=
  match o with
  | WriteOk => FileDoc store
  | WriteRefused => fs
  | WriteBrokenOff => FileCorrupt
  end.

Definition new_store (fs : file_state) (now : string) (chat_id : Z) (api_data : pyval) : result pyval :=
  daily ← py_get api_data "daily" (PDict ∅);
  text ← build_full_forecast_message api_data;
  py_setitem (loaded fs) (pretty chat_id) (cached_entry (now +:+ "Z") daily text).

(** The file can be opened and parsed, or is not there at all. *)
Definition readable (fs : file_state) : Prop :=
  match fs with
  | FileAbsent | FileDoc _ => True
  | FileUnreadable | FileCorrupt => False
  end.

(** The six fields of [daily] are lists of one length [n]. *)
Definition DAILY_FIELDS : list string :=
  ["time"; "temperature_2m_max"; "temperature_2m_min"; "precipitation_sum";
   "weathercode"; "windspeed_10m_max"].

Definition aligned (d : gmap string pyval) (n : Z) : bool :=
  forallb (λ k, match d !! k with
                | Some (PList l) => Z.of_nat (length l) =? n
                | _ => false
                end) DAILY_FIELDS.

(** Every field that is present is a list. *)
Definition fields_are_lists (d : gmap string pyval) : bool :=
  forallb (λ k, match d !! k with
                | Some (PList _) | None => true
                | Some _ => false
                end) DAILY_FIELDS.

(** The weather code at position [i], when there is one, is hashable. *)
Definition code_hashable (d : gmap string pyval) (i : Z) : Prop :=
  ∀ l c, default (PList []) (d !! "weathercode") = PList l →
         l !! Z.to_nat i = Some c → returns (int_key c).

(** *** The other handlers *)

(** [prefix + text]: [str + x] takes a [str] only. *)
Definition str_concat (prefix : string) (x : pyval) : result string :=
  match x with
  | PStr t => Ok (prefix +:+ t)
  | _ => Raise TypeError
  end.

Definition cmd_start (chat_id : Z) : M unit :=
  send chat_id
    ("Привет! Я присылаю прогноз погоды в Туле на сегодня и завтра." +:+ nl +:+ nl
     +:+ "Используй кнопки или напиши /weather.")
    false (Some main_kb).

(** The reply button "🌤 Погода в Туле" runs the handler of [/weather]. *)
Definition btn_weather_handler (env : environment) (chat_id : Z) : M unit :=
  cmd_weather env chat_id.

Definition btn_refresh_handler (env : environment) (chat_id : Z) : M unit :=
  try_exceptM
    (api_data ← lift (get_weather (http env));
     _ ← save_last_forecast (write env) (utcnow env) chat_id api_data;
     text ← lift (build_full_forecast_message api_data);
     _ ← send chat_id ("Обновлено:" +:+ nl +:+ nl +:+ text) true (Some main_kb);
     send chat_id "Выберите:" false (Some make_inline_kb))
    (λ _, send chat_id "Не удалось обновить прогноз. Попробуйте позже." false (Some main_kb)).

Definition btn_last_handler (chat_id : Z) : M unit :=
  last ← get_last_forecast chat_id;
  if py_truthy last then
    ts ← lift (py_get last "ts" (PStr "—"));
    text ← lift (py_get last "text" (PStr "—"));
    body ← lift (str_concat ("Последнее сохранённое: " +:+ py_str ts +:+ nl +:+ nl) text);
    _ ← send chat_id body true (Some main_kb);
    send chat_id "Выберите:" false (Some make_inline_kb)
  else
    send chat_id
      "Нет сохранённого прогноза для этого чата. Нажми «🌤 Погода в Туле» чтобы получить текущий прогноз."
      false (Some main_kb).

(** The inline button "refresh". *)
Definition cb_refresh (env : environment) (chat_id : Z) : M unit :=
  try_exceptM
    (api_data ← lift (get_weather (http env));
     _ ← save_last_forecast (write env) (utcnow env) chat_id api_data;
     text ← lift (build_full_forecast_message api_data);
     send chat_id ("Обновлено:" +:+ nl +:+ nl +:+ text) true (Some main_kb))
    (λ _, send chat_id "Не удалось обновить прогноз." false (Some main_kb)).

Definition fallback (chat_id : Z) : M unit :=
  send chat_id "Напиши /weather или используй кнопки." false (Some main_kb).

(** The buttons of a keyboard, row by row, each with its caption and, for
    an inline button, its callback data. *)
Definition keyboard_rows (k : keyboard) : list (list (string * option string)) :=
  match k with
  | main_kb =>
      [[("🌤 Погода в Туле", None)];
       [("🔁 Обновить", None); ("🕘 Последнее", None)]]
  | make_inline_kb =>
      [[("Сегодня", Some "day:0"); ("Завтра", Some "day:1")];
       [("🔁 Обновить", Some "refresh")]]
  end.

(** The filter of the refresh callback: [c.data == "refresh"]. *)
Definition is_refresh_callback (data : string) : bool := String.eqb data "refresh".

(** *** Notions used in the statements *)



(** Every character of the string is an ASCII character. *)
Fixpoint ascii_only (s : string) : bool :=
  match s with
  | EmptyString => true
  | String a rest => (Z.of_nat (nat_of_ascii a) <? 128) && ascii_only rest
  end.

(** A date entry that is an ASCII string, or no string at all. *)
Definition ascii_date (x : pyval) : bool :=
  match x with
  | PStr s => ascii_only s
  | _ => true
  end.

(** The text of one field of a day: the rendering of the value at the
    index, the placeholder when the array has no such position. *)
Definition field_text (xs : list pyval) (idx : Z) (render : pyval → string) : string :=
  match xs !! Z.to_nat idx with
  | Some v => render v
  | None => "—"
  end.

(** The date as shown: reformatted, or as it is when it does not parse. *)
Definition date_text (x : pyval) : string :=
  match reformat_date x with
  | Ok s => s
  | Raise _ => py_str x
  end.

Definition is_number (v : pyval) : bool :=
  match v with
  | PInt _ | PFloat _ | PBool _ => true
  | PNone | PStr _ | PList _ | PDict _ => false
  end.

(** No character of the string is ASCII whitespace. *)
Fixpoint no_space (s : string) : bool :=
  match s with
  | EmptyString => true
  | String a rest => negb (is_space a) && no_space rest
  end.

(** ** The model at a glance *)

Example format_temp_values :
  map _format_temp
    [PFloat 5.2; PInt (-3); PInt 0; PFloat 0.5; PFloat 1.5; PFloat 2.5; PFloat (-0.4);
     PBool true; PFloat nan; PNone; PStr "5"; PList []; PInt (10 ^ 400)]
  = ["+5°C"; "-3°C"; "+0°C"; "+0°C"; "+2°C"; "+2°C"; "-0°C";
     "+1°C"; "+nan°C"; "—"; "—"; "—"; "—"].
Proof. vm_compute. reflexivity. Qed.

Example weather_code_values :
  map (λ c, WEATHER_CODES_get c "—")
    [PInt 3; PInt 999; PFloat 3.0; PFloat 3.5; PBool true; PNone; PStr "3"; PList [PInt 3]]
  = [Ok "Пасмурно"; Ok "—"; Ok "Пасмурно"; Ok "—"; Ok "Преимущественно ясно";
     Ok "—"; Ok "—"; Raise TypeError].
Proof. vm_compute. reflexivity. Qed.

Example reformat_date_values :
  map reformat_date
    [PStr "2024-03-05"; PStr "2024-3-5"; PStr "2024-02-29"; PStr "2023-02-29";
     PStr "2024-13-01"; PStr "2024-03-05 "; PStr "05.03.2024"; PInt 20240305; PNone]
  = [Ok "05.03.2024"; Ok "05.03.2024"; Ok "29.02.2024"; Raise ValueError;
     Raise ValueError; Raise ValueError; Raise ValueError; Raise TypeError; Raise TypeError].
Proof. vm_compute. reflexivity. Qed.

Example indexing_values :
  map (py_getitem (PList [PInt 10; PInt 20])) [0; 1; 2; -1; -2; -3]
  = [Ok (PInt 10); Ok (PInt 20); Raise IndexError; Ok (PInt 20); Ok (PInt 10); Raise IndexError].
Proof. vm_compute. reflexivity. Qed.

Example py_int_values :
  map py_int ["0"; "-1"; "+7"; " 12 "; "1_000"; "007"; ""; "-"; "1__0"; "x"; "1.0"]
  = [Ok 0; Ok (-1); Ok 7; Ok 12; Ok 1000; Ok 7; Raise ValueError; Raise ValueError;
     Raise ValueError; Raise ValueError; Raise ValueError].
Proof. vm_compute. reflexivity. Qed.

(** A missing field, a short array and a value that is not a number each
    become the placeholder. *)
Example partial_day_block :
  _build_day_block_from_daily
    (PDict {[ "time" := PList [PStr "2024-03-05"; PStr "tomorrow"];
              "temperature_2m_max" := PList [PNone; PStr "warm"];
              "weathercode" := PList [PInt 3] ]}) 1 "Завтра"
  = Ok ("*Завтра — tomorrow*" +:+ nl +:+ "—" +:+ nl +:+ "Макс: —, мин: —" +:+ nl
        +:+ "Осадки: —" +:+ nl +:+ "Ветер: —" +:+ nl).
Proof. vm_compute. reflexivity. Qed.

Example full_message_of_scenario :
  build_full_forecast_message sample_api = Ok sample_text.
Proof. vm_compute. reflexivity. Qed.

(** ** Properties of the formatter *)

Lemma contains_app_r (a s sub : string) :
  contains s sub = true → contains (a +:+ s) sub = true.
Proof.
  intros H. induction a as [|c a IH]; [exact H|].
  change (String c a +:+ s) with (String c (a +:+ s)).
  cbn [contains]. rewrite IH. apply orb_true_r.
Qed.

Lemma py_get_dict (d : gmap string pyval) (k : string) (dflt : pyval) :
  py_get (PDict d) k dflt = Ok (default dflt (d !! k)).
Proof. reflexivity. Qed.

(** The six [daily.get(..., [])] of a dict never raise, so the function
    starts with the test on the length of the dates. *)
Lemma build_day_block_dict (d : gmap string pyval) (idx : Z) (label : string) :
  _build_day_block_from_daily (PDict d) idx label =
  let dates := default (PList []) (d !! "time") in
  let tmax := default (PList []) (d !! "temperature_2m_max") in
  let tmin := default (PList []) (d !! "temperature_2m_min") in
  let precip := default (PList []) (d !! "precipitation_sum") in
  let wcode := default (PList []) (d !! "weathercode") in
  let wind := default (PList []) (d !! "windspeed_10m_max") in
  n ← py_len dates;
  if idx >=? n then mret (no_data_block label)
  else
    date_str ← try_except
      (x ← py_getitem dates idx; s ← reformat_date x; mret (PStr s))
      (λ _, py_getitem dates idx);
    desc ← at_index wcode idx (λ c, WEATHER_CODES_get c "—");
    tmax_val ← at_index tmax idx (λ v, mret (_format_temp v));
    tmin_val ← at_index tmin idx (λ v, mret (_format_temp v));
    precip_val ← at_index precip idx (λ v, mret (py_str v +:+ " мм"));
    wind_val ← at_index wind idx (λ v, mret (py_str v +:+ " м/с"));
    mret (day_block label (py_str date_str) desc tmax_val tmin_val precip_val wind_val).
Proof. reflexivity. Qed.

(** C5: when [idx >= len(daily["time"])] (a missing ["time"] counts as the
    empty list) the block is the label line followed by the fixed line
    "Нет данных.", and nothing is raised. *)
Theorem no_data_beyond_dates (d : gmap string pyval) (idx n : Z) (label : string) :
  py_len (default (PList []) (d !! "time")) = Ok n →
  idx >= n →
  _build_day_block_from_daily (PDict d) idx label
  = Ok ("*" +:+ label +:+ "*" +:+ nl +:+ "Нет данных." +:+ nl).
Proof.
  intros Hlen Hge. rewrite build_day_block_dict. cbn zeta.
  rewrite Hlen. change (Ok n ≫= ?k) with (k n). cbn beta.
  replace (idx >=? n) with true by (symmetry; apply Z.geb_le; lia).
  reflexivity.
Qed.

(** C6: for the date "2024-03-05" with maximum 5.2, minimum -3,
    precipitation 0, weather code 3 and wind 12 the block is rendered and
    contains "05.03.2024", "Пасмурно", "+5°C", "-3°C", "0 мм" and "12 м/с". *)
Theorem scenario_block (label : string) :
  ∃ block,
    _build_day_block_from_daily scenario_day 0 label = Ok block ∧
    block = "*" +:+ label +:+ " — 05.03.2024*" +:+ nl +:+ "Пасмурно" +:+ nl
            +:+ "Макс: +5°C, мин: -3°C" +:+ nl +:+ "Осадки: 0 мм" +:+ nl
            +:+ "Ветер: 12 м/с" +:+ nl ∧
    contains block "05.03.2024" = true ∧
    contains block "Пасмурно" = true ∧
    contains block "+5°C" = true ∧
    contains block "-3°C" = true ∧
    contains block "0 мм" = true ∧
    contains block "12 м/с" = true.
Proof.
  eexists. split; [vm_compute; reflexivity|]. split; [reflexivity|].
  repeat split;
    change (String "*" (label +:+ ?t)) with ("*" +:+ label +:+ t);
    apply (contains_app_r "*"), contains_app_r; vm_compute; reflexivity.
Qed.

(** *** Indexing *)

Lemma seq_getitem_in_range {A} (l : list A) (i : Z) :
  0 <= i < Z.of_nat (length l) →
  ∃ x, l !! Z.to_nat i = Some x ∧ seq_getitem l i = Ok x.
Proof.
  intros Hi. destruct (lookup_lt_is_Some_2 l (Z.to_nat i)) as [x Hx]; [lia|].
  exists x. split; [done|]. unfold seq_getitem.
  replace (i <? 0) with false by lia.
  replace ((0 <=? i) && (i <? Z.of_nat (length l))) with true by lia.
  by rewrite Hx.
Qed.

(** A negative index within [-len, 0) reads the element at [len + idx]. *)
Lemma seq_getitem_negative {A} (l : list A) (idx : Z) :
  - Z.of_nat (length l) <= idx < 0 →
  seq_getitem l idx = seq_getitem l (Z.of_nat (length l) + idx).
Proof.
  intros Hi. unfold seq_getitem.
  replace (idx <? 0) with true by lia.
  replace (Z.of_nat (length l) + idx <? 0) with false by lia.
  by rewrite (Z.add_comm idx).
Qed.

Lemma at_index_list (l : list pyval) (idx : Z) (render : pyval → result string) :
  at_index (PList l) idx render =
  if idx <? Z.of_nat (length l) then x ← seq_getitem l idx; render x else Ok "—".
Proof. reflexivity. Qed.

Lemma at_index_negative (l : list pyval) (idx : Z) render :
  - Z.of_nat (length l) <= idx < 0 →
  at_index (PList l) idx render = at_index (PList l) (Z.of_nat (length l) + idx) render.
Proof.
  intros Hi. rewrite !at_index_list, seq_getitem_negative by done.
  replace (idx <? Z.of_nat (length l)) with true by lia.
  by replace (Z.of_nat (length l) + idx <? Z.of_nat (length l)) with true by lia.
Qed.

Lemma at_index_returns (l : list pyval) (idx : Z) render :
  0 <= idx →
  (∀ x, l !! Z.to_nat idx = Some x → returns (render x)) →
  returns (at_index (PList l) idx render).
Proof.
  intros Hi Hr. rewrite at_index_list.
  destruct (idx <? Z.of_nat (length l)) eqn:E; [|by eexists].
  destruct (seq_getitem_in_range l idx) as (x & Hx & ->); [lia|].
  by apply Hr.
Qed.

Lemma format_temp_nonempty (val : pyval) : _format_temp val ≠ "".
Proof.
  unfold _format_temp. destruct (py_format_plus_0f val) as [s|e]; [|done].
  destruct s; done.
Qed.

(** *** The two shapes of a block *)

Lemma append_inv_head (p s t : string) : p +:+ s = p +:+ t → s = t.
Proof. induction p as [|c p IH]; [done|]. intros [= H]. by apply IH. Qed.

Lemma day_block_not_no_data label date_str desc tmax_val tmin_val precip_val wind_val :
  day_block label date_str desc tmax_val tmin_val precip_val wind_val ≠ no_data_block label.
Proof.
  unfold day_block, no_data_block. intros H.
  apply (append_inv_head "*"), append_inv_head in H. discriminate H.
Qed.

(** Past the test on the dates the function either raises or returns a
    day block. *)
Lemma build_day_block_shape (d : gmap string pyval) (idx n : Z) (label block : string) :
  py_len (default (PList []) (d !! "time")) = Ok n →
  idx < n →
  _build_day_block_from_daily (PDict d) idx label = Ok block →
  ∃ date_str desc tmax_val tmin_val precip_val wind_val,
    block = day_block label date_str desc tmax_val tmin_val precip_val wind_val.
Proof.
  intros Hn Hi. rewrite build_day_block_dict. cbn zeta. rewrite Hn.
  unfold mbind at 1, result_bind at 1, rbind at 1.
  replace (idx >=? n) with false by lia.
  unfold mbind, result_bind, rbind, mret, result_ret.
  repeat match goal with
         | |- match ?r with Ok _ => _ | Raise _ => _ end = Ok _ → _ =>
             destruct r; [|discriminate]
         end.
  intros [= <-]. by do 6 eexists.
Qed.

(** *** What the formatter does guarantee *)

(** For an index from 0 on, fields that are lists of any lengths and a
    hashable weather code, the function returns, and what it returns is not
    empty. *)
Lemma day_block_returns (d : gmap string pyval) (idx : Z) (label : string) :
  fields_are_lists d = true →
  0 <= idx →
  code_hashable d idx →
  ∃ block, _build_day_block_from_daily (PDict d) idx label = Ok block ∧ block ≠ "".
Proof.
  intros Hl Hi Hh. rewrite build_day_block_dict. cbn zeta.
  unfold fields_are_lists, DAILY_FIELDS in Hl. cbn [forallb] in Hl.
  repeat (apply andb_prop in Hl as [? Hl]).
  assert (∀ k, match d !! k with Some (PList _) | None => true | Some _ => false end = true →
               ∃ l, default (PList []) (d !! k) = PList l) as Hfield.
  { intros k Hk. destruct (d !! k) as [[]|]; try done; by eexists. }
  destruct (Hfield "time") as (dates & ->); [done|].
  destruct (Hfield "temperature_2m_max") as (tmax & ->); [done|].
  destruct (Hfield "temperature_2m_min") as (tmin & ->); [done|].
  destruct (Hfield "precipitation_sum") as (precip & ->); [done|].
  destruct (Hfield "weathercode") as (wcode & Hw); [done|]. rewrite Hw.
  destruct (Hfield "windspeed_10m_max") as (wind & ->); [done|].
  cbn [py_len]. unfold mbind at 1, result_bind at 1, rbind at 1.
  destruct (idx >=? Z.of_nat (length dates)) eqn:E.
  { eexists. split; [done|]. done. }
  destruct (seq_getitem_in_range dates idx) as (x & _ & Hx); [lia|].
  cbn [py_getitem]. rewrite Hx.
  assert (returns (try_except (x0 ← Ok x; s ← reformat_date x0; mret (PStr s))
                     (λ _, Ok x))) as [date_str ->].
  { unfold mbind, result_bind, rbind. destruct (reformat_date x); by eexists. }
  destruct (at_index_returns wcode idx (λ c, WEATHER_CODES_get c "—") Hi) as [desc ->].
  { intros c Hc. unfold WEATHER_CODES_get.
    destruct (Hh wcode c Hw Hc) as [k ->]. by eexists. }
  destruct (at_index_returns tmax idx (λ v, mret (_format_temp v)) Hi) as [tmax_val ->];
    [by eexists|].
  destruct (at_index_returns tmin idx (λ v, mret (_format_temp v)) Hi) as [tmin_val ->];
    [by eexists|].
  destruct (at_index_returns precip idx (λ v, mret (py_str v +:+ " мм")) Hi) as [precip_val ->];
    [by eexists|].
  destruct (at_index_returns wind idx (λ v, mret (py_str v +:+ " м/с")) Hi) as [wind_val ->];
    [by eexists|].
  eexists. split; [done|]. done.
Qed.

(** ** Properties of the store *)

Lemma load_store_run (w : world) :
  _load_store w = (Ok (loaded (store_file w)), w).
Proof. destruct w as [[| | |v] out]; reflexivity. Qed.

Lemma save_store_run (o : write_outcome) (store : pyval) (w : world) :
  _save_store o store w = (Ok (), World (written o store (store_file w)) (outbox w)).
Proof. destruct w, o; reflexivity. Qed.

Lemma save_last_forecast_run o now chat_id api_data (w : world) :
  save_last_forecast o now chat_id api_data w =
  match new_store (store_file w) now chat_id api_data with
  | Ok store' => (Ok (), World (written o store' (store_file w)) (outbox w))
  | Raise e => (Raise e, w)
  end.
Proof.
  unfold save_last_forecast, new_store.
  unfold mbind at 1, M_bind. rewrite load_store_run.
  unfold mbind, M_bind, result_bind, lift, rbind.
  destruct (py_get api_data "daily" (PDict ∅)) as [daily|e]; [|reflexivity].
  destruct (build_full_forecast_message api_data) as [text|e]; [|reflexivity].
  destruct (py_setitem _ _ _) as [store'|e]; [|reflexivity].
  apply save_store_run.
Qed.

Lemma get_last_forecast_run chat_id (w : world) :
  get_last_forecast chat_id w = (py_get (loaded (store_file w)) (pretty chat_id) PNone, w).
Proof.
  unfold get_last_forecast. unfold mbind, M_bind. rewrite load_store_run. reflexivity.
Qed.

(** When the payload is a dict that renders and the file holds no document
    other than a dict, the new store is the old one with the entry put under
    [str(chat_id)]. *)
Lemma new_store_ok fs now chat_id api_data daily text :
  py_get api_data "daily" (PDict ∅) = Ok daily →
  build_full_forecast_message api_data = Ok text →
  (∀ v, fs = FileDoc v → ∃ m, v = PDict m) →
  ∃ m, loaded fs = PDict m ∧
       new_store fs now chat_id api_data
       = Ok (PDict (<[pretty chat_id := cached_entry (now +:+ "Z") daily text]> m)).
Proof.
  intros Hd Ht Hdoc. unfold new_store. rewrite Hd, Ht.
  assert (∃ m, loaded fs = PDict m) as [m Hm].
  { destruct fs as [| | |v]; try (by eexists). destruct (Hdoc v eq_refl) as [m ->]. by eexists. }
  exists m. split; [done|]. rewrite Hm. reflexivity.
Qed.

Lemma new_store_inv fs now chat_id api_data store' :
  new_store fs now chat_id api_data = Ok store' →
  ∃ m daily text,
    loaded fs = PDict m ∧
    py_get api_data "daily" (PDict ∅) = Ok daily ∧
    build_full_forecast_message api_data = Ok text ∧
    store' = PDict (<[pretty chat_id := cached_entry (now +:+ "Z") daily text]> m).
Proof.
  unfold new_store. unfold mbind, result_bind, rbind.
  destruct (py_get api_data "daily" (PDict ∅)) as [daily|e]; [|done].
  destruct (build_full_forecast_message api_data) as [text|e]; [|done].
  destruct (loaded fs) as [| | | | | |m]; try done.
  cbn. intros [= <-]. by exists m, daily, text.
Qed.

(** A file that cannot be opened or parsed reads as the empty store, so
    [get_last_forecast] returns [None] instead of raising; [_save_store]
    returns normally whatever happens to the write; what
    [save_last_forecast] returns to its caller does not depend on the
    outcome of the write, and for a payload that renders it returns normally
    on every outcome. *)
Theorem persistence_failures_absorbed :
  (∀ chat_id out,
     get_last_forecast chat_id (World FileUnreadable out) = (Ok PNone, World FileUnreadable out) ∧
     get_last_forecast chat_id (World FileCorrupt out) = (Ok PNone, World FileCorrupt out) ∧
     (get_last_forecast chat_id (World (FileDoc (PDict ∅)) out)).1 = Ok PNone) ∧
  (∀ o store w, (_save_store o store w).1 = Ok ()) ∧
  (∀ o now chat_id api_data w,
     (save_last_forecast o now chat_id api_data w).1
     = (save_last_forecast WriteOk now chat_id api_data w).1) ∧
  (∀ o now chat_id api_data daily text w,
     py_get api_data "daily" (PDict ∅) = Ok daily →
     build_full_forecast_message api_data = Ok text →
     (∀ v, store_file w = FileDoc v → ∃ m, v = PDict m) →
     (save_last_forecast o now chat_id api_data w).1 = Ok ()).
Proof.
  split; [|split; [|split]].
  - intros. rewrite !get_last_forecast_run. done.
  - intros. by rewrite save_store_run.
  - intros. rewrite !save_last_forecast_run.
    by destruct (new_store _ _ _ _).
  - intros o now chat_id api_data daily text w Hd Ht Hdoc.
    destruct (new_store_ok (store_file w) now chat_id api_data daily text Hd Ht Hdoc)
      as (m & _ & Hnew).
    by rewrite save_last_forecast_run, Hnew.
Qed.


Lemma filter_none {A} (P : A → Prop) `{∀ x, Decision (P x)} (l : list A) :
  (∀ x, x ∈ l → ¬ P x) → filter P l = [].
Proof.
  induction l as [|x l IH]; intros Hl; [done|].
  rewrite filter_cons_False by (apply Hl; left).
  apply IH. intros y Hy. apply Hl. by right.
Qed.

(** The entries of a dict under one key. *)
Lemma one_entry_per_key (m : gmap string pyval) (k : string) (v : pyval) :
  m !! k = Some v →
  filter (λ kv, kv.1 = k) (map_to_list m) = [(k, v)].
Proof.
  intros Hk. apply Permutation_singleton_r.
  rewrite <- (insert_delete_id m k v Hk) at 1.
  rewrite map_to_list_insert by apply lookup_delete_eq.
  rewrite filter_cons_True by done.
  rewrite filter_none; [done|].
  intros [k' v'] Hin. apply elem_of_map_to_list in Hin. cbn. intros ->.
  by rewrite lookup_delete_eq in Hin.
Qed.

(** C8, amended: after two saves for one chat that both return, the second
    of which is written, the store is a dict with exactly one entry under
    [str(chat_id)], the entry of the second save; when the first save was
    written too, the second added no key. *)
Theorem save_twice_one_entry o1 now1 now2 chat_id api1 api2 (w : world) :
  let first := save_last_forecast o1 now1 chat_id api1 w in
  let second := save_last_forecast WriteOk now2 chat_id api2 first.2 in
  first.1 = Ok () → second.1 = Ok () →
  ∃ m daily2 text2,
    store_file second.2 = FileDoc (PDict m) ∧
    py_get api2 "daily" (PDict ∅) = Ok daily2 ∧
    build_full_forecast_message api2 = Ok text2 ∧
    filter (λ kv, kv.1 = pretty chat_id) (map_to_list m)
    = [(pretty chat_id, cached_entry (now2 +:+ "Z") daily2 text2)] ∧
    (o1 = WriteOk →
     ∃ m1, store_file first.2 = FileDoc (PDict m1) ∧ dom m = dom m1 ∧ size m = size m1).
Proof.
  cbn zeta. rewrite save_last_forecast_run.
  destruct (new_store (store_file w) now1 chat_id api1) as [s1|e] eqn:E1; [|done].
  intros _. cbn [fst snd]. rewrite save_last_forecast_run. cbn [store_file outbox].
  destruct (new_store (written o1 s1 (store_file w)) now2 chat_id api2) as [s2|e] eqn:E2; [|done].
  intros _. cbn [fst snd store_file written].
  apply new_store_inv in E2 as (m2 & daily2 & text2 & Hm2 & Hd2 & Ht2 & ->).
  exists (<[pretty chat_id := cached_entry (now2 +:+ "Z") daily2 text2]> m2), daily2, text2.
  repeat split; try done.
  - apply one_entry_per_key, lookup_insert_eq.
  - intros ->. cbn [written loaded] in Hm2. subst s1.
    apply new_store_inv in E1 as (m1 & daily1 & text1 & _ & _ & _ & Hs1).
    simplify_eq. eexists. split; [done|].
    assert (dom (<[pretty chat_id:=cached_entry (now2 +:+ "Z") daily2 text2]>
                   (<[pretty chat_id:=cached_entry (now1 +:+ "Z") daily1 text1]> m1))
            = dom (<[pretty chat_id:=cached_entry (now1 +:+ "Z") daily1 text1]> m1)) as Hdom.
    { rewrite !dom_insert_L. by rewrite (assoc_L (∪)), union_idemp_L. }
    split; [done|]. by rewrite <- !size_dom, Hdom.
Qed.

(** C9, amended: a save for chat A that is written, or whose file could not
    be opened for writing, leaves what the store holds under every key other
    than [str(A)], so the entry of a chat B other than A, as it was. *)
Theorem save_leaves_other_chats o now chat_a chat_b api_data (w : world) :
  chat_a ≠ chat_b →
  readable (store_file w) →
  o ≠ WriteBrokenOff →
  let saved := save_last_forecast o now chat_a api_data w in
  (get_last_forecast chat_b saved.2).1 = (get_last_forecast chat_b w).1 ∧
  ∀ key dflt, key ≠ pretty chat_a →
    py_get (loaded (store_file saved.2)) key dflt = py_get (loaded (store_file w)) key dflt.
Proof.
  intros Hab _ Ho. cbn zeta.
  assert (∀ key dflt, key ≠ pretty chat_a →
    py_get (loaded (store_file (save_last_forecast o now chat_a api_data w).2)) key dflt
    = py_get (loaded (store_file w)) key dflt) as Hframe.
  { intros key dflt Hkey. rewrite save_last_forecast_run.
    destruct (new_store _ _ _ _) as [s'|e] eqn:E; [|done].
    apply new_store_inv in E as (m & daily & text & Hm & _ & _ & ->).
    destruct o; [|done|done]. cbn [snd store_file written loaded].
    rewrite Hm, !py_get_dict. by rewrite lookup_insert_ne. }
  split; [|exact Hframe].
  rewrite !get_last_forecast_run. cbn [fst]. apply Hframe.
  intros Heq. apply Hab. symmetry. exact (inj pretty _ _ Heq).
Qed.

(** ** Properties of the client and of the handlers *)

Lemma cmd_weather_fetch_failed env chat_id (w : world) :
  raises (get_weather (http env)) →
  cmd_weather env chat_id w
  = (Ok (), World (store_file w)
              (outbox w ++ [Message chat_id "Не удалось получить прогноз. Попробуйте позже."
                              false (Some main_kb)])).
Proof.
  intros [e He]. unfold cmd_weather, try_exceptM, mbind, M_bind, lift.
  rewrite He. reflexivity.
Qed.

(** C4: when the request of [/weather] fails, the chat gets the one fixed
    message and the store file is what it was. *)
Theorem fetch_failure_leaves_store env chat_id (w : world) :
  raises (get_weather (http env)) →
  cmd_weather env chat_id w
  = (Ok (), World (store_file w)
              (outbox w ++ [Message chat_id "Не удалось получить прогноз. Попробуйте позже."
                              false (Some main_kb)])) ∧
  store_file (cmd_weather env chat_id w).2 = store_file w.
Proof.
  intros Hf. rewrite (cmd_weather_fetch_failed env chat_id w Hf). done.
Qed.

Lemma save_raises_when_render_raises o now chat_id api_data (w : world) :
  raises (build_full_forecast_message api_data) →
  ∃ e, save_last_forecast o now chat_id api_data w = (Raise e, w).
Proof.
  intros [e He]. rewrite save_last_forecast_run. unfold new_store.
  destruct (py_get api_data "daily" (PDict ∅)) as [daily|e']; [|by eexists].
  rewrite He. by eexists.
Qed.











(** The day callback on a chat with a cached forecast: the integer after
    "day:" goes to the formatter as it is. *)
Lemma cb_day_callback_cached env chat_id idx_str idx last daily (w : world) :
  py_int idx_str = Ok idx →
  (get_last_forecast chat_id w).1 = Ok last →
  py_truthy last = true →
  py_get last "daily" (PDict ∅) = Ok daily →
  is_day_callback ("day:" +:+ idx_str) = true ∧
  cb_day_callback env chat_id ("day:" +:+ idx_str) w =
  match _build_day_block_from_daily daily idx (day_label idx) with
  | Ok block =>
      (Ok (), World (store_file w) (outbox w ++ [Message chat_id block true (Some main_kb)]))
  | Raise e => (Raise e, w)
  end.
Proof.
  intros Hint Hlast Htruthy Hdaily. split.
  { unfold is_day_callback. cbn. by destruct idx_str. }
  unfold cb_day_callback.
  change (split_colon_once ("day:" +:+ idx_str)) with ["day"; idx_str].
  cbv beta iota. rewrite Hint. rewrite get_last_forecast_run in Hlast. cbn [fst] in Hlast.
  unfold mbind at 1, M_bind at 1. rewrite get_last_forecast_run, Hlast, Htruthy.
  unfold mbind, M_bind, lift. rewrite Hdaily.
  by destruct (_build_day_block_from_daily daily idx (day_label idx)).
Qed.

Lemma aligned_field (d : gmap string pyval) (n : Z) (k : string) :
  aligned d n = true → k ∈ DAILY_FIELDS →
  ∃ l, d !! k = Some (PList l) ∧ Z.of_nat (length l) = n.
Proof.
  unfold aligned. rewrite forallb_forall. intros Hall Hk.
  specialize (Hall k). rewrite <- list_elem_of_In in Hall. specialize (Hall Hk).
  destruct (d !! k) as [[]|]; try done. eexists. split; [done|lia].
Qed.

Lemma aligned_lists (d : gmap string pyval) (n : Z) :
  aligned d n = true → fields_are_lists d = true.
Proof.
  unfold aligned, fields_are_lists. rewrite !forallb_forall.
  intros Hall k Hk. specialize (Hall k Hk). by destruct (d !! k) as [[]|].
Qed.

(** With all six arrays of one length [n] and
    [-n <= idx < 0], the function returns for [idx] what it returns for
    [n + idx], which is never the "no data" block and is a rendered block
    when the weather code there is hashable; the day callback passes such an
    index on when it follows "day:". *)
Theorem negative_index_counts_from_end (d : gmap string pyval) (n idx : Z) (label : string) :
  aligned d n = true →
  - n <= idx < 0 →
  _build_day_block_from_daily (PDict d) idx label
  = _build_day_block_from_daily (PDict d) (n + idx) label ∧
  _build_day_block_from_daily (PDict d) idx label ≠ Ok (no_data_block label) ∧
  (code_hashable d (n + idx) → returns (_build_day_block_from_daily (PDict d) idx label)) ∧
  (∀ env chat_id idx_str last w,
     py_int idx_str = Ok idx →
     (get_last_forecast chat_id w).1 = Ok last →
     py_truthy last = true →
     py_get last "daily" (PDict ∅) = Ok (PDict d) →
     is_day_callback ("day:" +:+ idx_str) = true ∧
     cb_day_callback env chat_id ("day:" +:+ idx_str) w =
     match _build_day_block_from_daily (PDict d) (n + idx) "Завтра" with
     | Ok block =>
         (Ok (), World (store_file w) (outbox w ++ [Message chat_id block true (Some main_kb)]))
     | Raise e => (Raise e, w)
     end).
Proof.
  intros Ha Hi.
  assert (∀ lbl, _build_day_block_from_daily (PDict d) idx lbl
                 = _build_day_block_from_daily (PDict d) (n + idx) lbl) as Heq.
  { intros lbl. rewrite !build_day_block_dict. cbn zeta.
    destruct (aligned_field d n "time" Ha) as (dates & E1 & Hd); [by repeat constructor|].
    destruct (aligned_field d n "temperature_2m_max" Ha) as (tmax & E2 & Htx); [by repeat constructor|].
    destruct (aligned_field d n "temperature_2m_min" Ha) as (tmin & E3 & Htn); [by repeat constructor|].
    destruct (aligned_field d n "precipitation_sum" Ha) as (precip & E4 & Hp); [by repeat constructor|].
    destruct (aligned_field d n "weathercode" Ha) as (wcode & E5 & Hc); [by repeat constructor|].
    destruct (aligned_field d n "windspeed_10m_max" Ha) as (wind & E6 & Hw); [by repeat constructor|].
    rewrite E1, E2, E3, E4, E5, E6. cbn [default from_option id py_len py_getitem].
    rewrite (seq_getitem_negative dates idx) by lia.
    rewrite (at_index_negative wcode idx), (at_index_negative tmax idx),
      (at_index_negative tmin idx), (at_index_negative precip idx),
      (at_index_negative wind idx) by lia.
    rewrite Hd, Htx, Htn, Hp, Hc, Hw.
    assert (∀ A (k : Z → result A), Ok n ≫= k = k n) as Hbind by done.
    rewrite !Hbind.
    replace (idx >=? n) with false by lia.
    by replace (n + idx >=? n) with false by lia. }
  destruct (aligned_field d n "time" Ha) as (dates & Hdates & Hd); [by repeat constructor|].
  split; [apply Heq|]. split; [|split].
  - intros Hblock.
    assert (py_len (default (PList []) (d !! "time")) = Ok n) as Hlen
      by (by rewrite Hdates, <- Hd).
    assert (idx < n) as Hlt by lia.
    destruct (build_day_block_shape d idx n label _ Hlen Hlt Hblock)
      as (a & b & c & e & f & g & Hshape).
    symmetry in Hshape. by apply day_block_not_no_data in Hshape.
  - intros Hh. rewrite Heq.
    destruct (day_block_returns d (n + idx) label) as (block & -> & _);
      [by eapply aligned_lists|lia|done|by eexists].
  - intros env chat_id idx_str last w Hint Hlast Ht Hdaily.
    destruct (cb_day_callback_cached env chat_id idx_str idx last (PDict d) w)
      as [Hfilter Hrun]; try done.
    split; [done|]. rewrite Hrun, Heq.
    unfold day_label. by replace (idx =? 0) with false by lia.
Qed.

(** C1 fails on the code: with a weather code that is a JSON array the
    lookup in [WEATHER_CODES] raises [TypeError] out of the function, at the
    index 0; and an index below [-len(dates)] raises [IndexError]. *)
Theorem day_block_raises :
  _build_day_block_from_daily code_is_array 0 "Сегодня" = Raise TypeError ∧
  _build_day_block_from_daily dates_only (-2) "Завтра" = Raise IndexError.
Proof. split; vm_compute; reflexivity. Qed.

(** C7 fails on the code: a store file that holds valid JSON other than an
    object (an array, [null]) is handed on by [_load_store] as it is, and
    the exception of the access leaves the store functions:
    [get_last_forecast] raises [AttributeError] and [save_last_forecast]
    raises [TypeError] to their callers, where a file that does not parse
    reads as the empty store. *)
Theorem non_object_store_raises :
  (∀ chat_id l out,
     get_last_forecast chat_id (World (FileDoc (PList l)) out)
     = (Raise AttributeError, World (FileDoc (PList l)) out)) ∧
  (∀ chat_id out,
     get_last_forecast chat_id (World (FileDoc PNone) out)
     = (Raise AttributeError, World (FileDoc PNone) out)) ∧
  (∀ o now chat_id l out,
     save_last_forecast o now chat_id sample_api (World (FileDoc (PList l)) out)
     = (Raise TypeError, World (FileDoc (PList l)) out)) ∧
  (∀ o now chat_id out,
     save_last_forecast o now chat_id sample_api (World (FileDoc PNone) out)
     = (Raise TypeError, World (FileDoc PNone) out)) ∧
  (∀ chat_id out,
     get_last_forecast chat_id (World FileCorrupt out) = (Ok PNone, World FileCorrupt out)).
Proof.
  assert (py_get sample_api "daily" (PDict ∅) = Ok scenario_day) as Hd
    by (vm_compute; reflexivity).
  assert (build_full_forecast_message sample_api = Ok sample_text) as Ht
    by (vm_compute; reflexivity).
  split; [|split; [|split; [|split]]]; intros.
  - by rewrite get_last_forecast_run.
  - by rewrite get_last_forecast_run.
  - rewrite save_last_forecast_run. unfold new_store. by rewrite Hd, Ht.
  - rewrite save_last_forecast_run. unfold new_store. by rewrite Hd, Ht.
  - by rewrite get_last_forecast_run.
Qed.

(** C10 fails on the code: with one date and none of the value arrays the
    index -1 lies in [-len(dates), 0), yet the function raises [IndexError]
    instead of rendering the day at position [len + idx = 0], which at the
    index 0 is the block with the placeholders.  The guard
    [idx < len(wcode)] holds for every negative index, so the element is
    read where the placeholder was meant.  The callback data "day:-1" gets
    there. *)
Theorem negative_index_short_array_raises :
  (∀ label, _build_day_block_from_daily dates_only 0 label
            = Ok (day_block label "05.03.2024" "—" "—" "—" "—" "—")) ∧
  (∀ label, _build_day_block_from_daily dates_only (-1) label = Raise IndexError) ∧
  (∀ env,
     let cached := (save_last_forecast WriteOk "2024-03-05T10:00:00" 42
                      dates_only_api empty_world).2 in
     is_day_callback "day:-1" = true ∧
     cb_day_callback env 42 "day:-1" cached = (Raise IndexError, cached)).
Proof.
  split; [|split]; intros; cbn zeta; try split; vm_compute; reflexivity.
Qed.

(** ** Further properties of the formatter *)

Lemma bind_ok {A B} (a : A) (k : A → result B) : Ok a ≫= k = k a.
Proof. reflexivity. Qed.

Lemma bind_raise {A B} (e : exn) (k : A → result B) : Raise e ≫= k = Raise e.
Proof. reflexivity. Qed.

Lemma seq_getitem_lookup {A} (l : list A) (i : Z) (x : A) :
  0 <= i → l !! Z.to_nat i = Some x → seq_getitem l i = Ok x.
Proof.
  intros Hi Hx. pose proof (lookup_lt_Some _ _ _ Hx) as Hlt.
  destruct (seq_getitem_in_range l i) as (y & Hy & ->); [lia|]. congruence.
Qed.

Lemma seq_getitem_below {A} (l : list A) (idx : Z) :
  idx < - Z.of_nat (length l) → seq_getitem l idx = Raise IndexError.
Proof.
  intros Hi. unfold seq_getitem.
  replace (idx <? 0) with true by lia.
  by replace ((0 <=? idx + Z.of_nat (length l)) && (idx + Z.of_nat (length l) <? Z.of_nat (length l)))
    with false by lia.
Qed.

Lemma at_index_lookup (l : list pyval) (idx : Z) (render : pyval → result string) :
  0 <= idx →
  at_index (PList l) idx render
  = match l !! Z.to_nat idx with Some c => render c | None => Ok "—" end.
Proof.
  intros Hi. rewrite at_index_list.
  destruct (idx <? Z.of_nat (length l)) eqn:E.
  - destruct (seq_getitem_in_range l idx) as (x & -> & ->); [lia|]. done.
  - by rewrite lookup_ge_None_2 by lia.
Qed.

Lemma build_no_data (d : gmap string pyval) (idx n : Z) (label : string) :
  py_len (default (PList []) (d !! "time")) = Ok n →
  n <= idx →
  _build_day_block_from_daily (PDict d) idx label = Ok (no_data_block label).
Proof.
  intros Hlen Hge. rewrite build_day_block_dict. cbn zeta.
  rewrite Hlen, bind_ok. by replace (idx >=? n) with true by lia.
Qed.

(** X1: for a day that exists ([0 <= idx < len(dates)]), fields that are
    lists and a date that is an ASCII string or no string, the block is put
    together field by field: the date reformatted or, when it does not
    parse, as it is; for each value array the rendering of its element at
    [idx], or the placeholder when the array is too short; only the lookup
    of the weather code can raise. *)
Theorem day_block_fieldwise (d : gmap string pyval) (idx : Z) (label : string)
    (dates tmax tmin precip wcode wind : list pyval) (x : pyval) :
  default (PList []) (d !! "time") = PList dates →
  default (PList []) (d !! "temperature_2m_max") = PList tmax →
  default (PList []) (d !! "temperature_2m_min") = PList tmin →
  default (PList []) (d !! "precipitation_sum") = PList precip →
  default (PList []) (d !! "weathercode") = PList wcode →
  default (PList []) (d !! "windspeed_10m_max") = PList wind →
  0 <= idx →
  dates !! Z.to_nat idx = Some x →
  ascii_date x = true →
  _build_day_block_from_daily (PDict d) idx label =
  desc ← match wcode !! Z.to_nat idx with
         | Some c => WEATHER_CODES_get c "—"
         | None => Ok "—"
         end;
  mret (day_block label (date_text x) desc
          (field_text tmax idx _format_temp)
          (field_text tmin idx _format_temp)
          (field_text precip idx (λ v, py_str v +:+ " мм"))
          (field_text wind idx (λ v, py_str v +:+ " м/с"))).
Proof.
  intros E1 E2 E3 E4 E5 E6 Hi Hx _. rewrite build_day_block_dict. cbn zeta.
  rewrite E1, E2, E3, E4, E5, E6. cbn [py_len py_getitem]. rewrite bind_ok.
  pose proof (lookup_lt_Some _ _ _ Hx) as Hlt.
  replace (idx >=? Z.of_nat (length dates)) with false by lia.
  rewrite (seq_getitem_lookup dates idx x Hi Hx), bind_ok.
  assert (try_except (s ← reformat_date x; mret (PStr s)) (λ _, Ok x)
          ≫= (λ date_str, Ok (py_str date_str)) = Ok (date_text x)) as Hdate.
  { unfold date_text. by destruct (reformat_date x). }
  rewrite !at_index_lookup by done.
  destruct (try_except (s ← reformat_date x; mret (PStr s)) (λ _, Ok x)) as [date_str|e] eqn:Ed.
  2:{ by destruct (reformat_date x). }
  rewrite bind_ok in Hdate. injection Hdate as Hdate. rewrite bind_ok, Hdate.
  destruct (wcode !! Z.to_nat idx) as [c|]; [destruct (WEATHER_CODES_get c "—")|];
    rewrite ?bind_ok; try done;
    unfold field_text;
    destruct (tmax !! Z.to_nat idx), (tmin !! Z.to_nat idx),
      (precip !! Z.to_nat idx), (wind !! Z.to_nat idx); reflexivity.
Qed.

(** X2: for an index from 0 on, fields that are lists of whatever lengths
    and a hashable weather code the function returns a text that is not
    empty; the text is the "no data" block exactly when the index is not
    below the number of dates. *)
Theorem day_block_total (d : gmap string pyval) (idx : Z) (label : string) :
  fields_are_lists d = true →
  0 <= idx →
  code_hashable d idx →
  ∃ block n,
    _build_day_block_from_daily (PDict d) idx label = Ok block ∧
    py_len (default (PList []) (d !! "time")) = Ok n ∧
    block ≠ "" ∧
    (block = no_data_block label ↔ n <= idx).
Proof.
  intros Hl Hi Hh.
  destruct (day_block_returns d idx label Hl Hi Hh) as (block & Hb & Hne).
  assert (∃ n, py_len (default (PList []) (d !! "time")) = Ok n) as [n Hn].
  { unfold fields_are_lists in Hl. cbn [DAILY_FIELDS forallb] in Hl.
    apply andb_prop in Hl as [Ht _].
    destruct (d !! "time") as [[]|]; try done; by eexists. }
  exists block, n. repeat split; try done.
  - intros ->. destruct (Z.le_gt_cases n idx) as [|Hlt]; [done|].
    destruct (build_day_block_shape d idx n label _ Hn ltac:(lia) Hb)
      as (a & b & c & e & f & g & Hshape).
    symmetry in Hshape. by apply day_block_not_no_data in Hshape.
  - intros Hge. rewrite (build_no_data d idx n label Hn Hge) in Hb. congruence.
Qed.

Lemma build_below_dates (d : gmap string pyval) (dates : list pyval)
    (idx : Z) (label : string) :
  default (PList []) (d !! "time") = PList dates →
  idx < - Z.of_nat (length dates) →
  _build_day_block_from_daily (PDict d) idx label = Raise IndexError.
Proof.
  intros E1 Hi. rewrite build_day_block_dict. cbn zeta.
  rewrite E1. cbn [py_len py_getitem]. rewrite bind_ok.
  replace (idx >=? Z.of_nat (length dates)) with false by lia.
  by rewrite (seq_getitem_below dates idx Hi).
Qed.

(** X3: an index below [-len(dates)] raises [IndexError]: it passes the
    test [idx >= len(dates)], the indexing in the [try] block fails, and the
    [except] branch indexes again.  With no dates at all this is so for
    every negative index. *)
Theorem index_below_dates_raises (d : gmap string pyval) (dates : list pyval)
    (idx : Z) (label : string) :
  default (PList []) (d !! "time") = PList dates →
  idx < - Z.of_nat (length dates) →
  _build_day_block_from_daily (PDict d) idx label = Raise IndexError.
Proof. apply build_below_dates. Qed.

Lemma signed_not_placeholder (s : bool) (body : string) :
  sign_plus s +:+ body ≠ "—".
Proof. by destruct s. Qed.

Lemma float_format_signed (x : spec_float) :
  ∃ sign body, (sign = "+" ∨ sign = "-") ∧ float_format_plus_0f x = sign +:+ body.
Proof.
  destruct x as [s|s| |s m e]; cbn [float_format_plus_0f].
  - exists (sign_plus s), "0". split; [destruct s; auto|done].
  - exists (sign_plus s), "inf". split; [destruct s; auto|done].
  - exists "+", "nan". auto.
  - exists (sign_plus s), (pretty (round_half_even (Z.pos m) e)).
    split; [destruct s; auto|done].
Qed.

Lemma append_assoc (a b c : string) : (a +:+ b) +:+ c = a +:+ b +:+ c.
Proof.
  induction a as [|x a IH]; [done|].
  change (String x ((a +:+ b) +:+ c) = String x (a +:+ b +:+ c)). by rewrite IH.
Qed.

(** X4: a temperature is either the placeholder or a text that starts with
    an explicit sign and ends with the unit; a value that is not a number is
    always the placeholder, a float never is (for an [int] only one too
    large for a float is). *)
Theorem format_temp_shape (val : pyval) :
  (_format_temp val = "—" ∨
   ∃ sign body, (sign = "+" ∨ sign = "-") ∧ _format_temp val = sign +:+ body +:+ "°C") ∧
  (is_number val = false → _format_temp val = "—") ∧
  (_format_temp val = "—" →
   is_number val = false ∨ ∃ z, val = PInt z ∧ float_of_int z = Raise OverflowError).
Proof.
  assert (∀ x, ∃ sign body, (sign = "+" ∨ sign = "-") ∧
            float_format_plus_0f x +:+ "°C" = sign +:+ body +:+ "°C") as Hsigned.
  { intros x. destruct (float_format_signed x) as (sign & body & Hs & ->).
    exists sign, body. split; [done|]. apply append_assoc. }
  assert (∀ x, float_format_plus_0f x +:+ "°C" ≠ "—") as Hne.
  { intros x. destruct (Hsigned x) as (sign & body & [-> | ->] & ->); done. }
  unfold _format_temp.
  destruct val as [|b|z|f|s|l|m]; cbn [py_format_plus_0f is_number];
    try (split; [by left|split; [done|by left]]).
  - split; [right; apply Hsigned|]. split; [done|]. intros H. by apply Hne in H.
  - unfold rbind. destruct (float_of_int z) as [x|e] eqn:Ez.
    + split; [right; apply Hsigned|]. split; [done|]. intros H. by apply Hne in H.
    + split; [by left|]. split; [done|]. intros _. right. exists z. split; [done|].
      unfold float_of_int in *. by destruct (binary_normalize 53 1024 z 0 false).
  - split; [right; apply Hsigned|]. split; [done|]. intros H. by apply Hne in H.
Qed.

(** X5: when the payload has at most one date (a payload without "daily",
    or a "daily" without "time", has none), the block of tomorrow in the full
    message is the "no data" block; with no date both blocks are, and the
    message is one fixed text. *)
Theorem full_message_short_forecast (d dd : gmap string pyval) (n : Z) :
  default (PDict ∅) (d !! "daily") = PDict dd →
  py_len (default (PList []) (dd !! "time")) = Ok n →
  n <= 1 →
  build_full_forecast_message (PDict d)
  = (today ← _build_day_block_from_daily (PDict dd) 0 "Сегодня";
     mret (today +:+ nl +:+ "*Завтра*" +:+ nl +:+ "Нет данных." +:+ nl
           +:+ nl +:+ nl +:+ "Данные: Open-Meteo.com")) ∧
  (n <= 0 →
   build_full_forecast_message (PDict d)
   = Ok ("*Сегодня*" +:+ nl +:+ "Нет данных." +:+ nl +:+ nl
         +:+ "*Завтра*" +:+ nl +:+ "Нет данных." +:+ nl
         +:+ nl +:+ nl +:+ "Данные: Open-Meteo.com")).
Proof.
  intros Hd Hn Hle.
  assert (build_full_forecast_message (PDict d)
          = (today ← _build_day_block_from_daily (PDict dd) 0 "Сегодня";
             tomorrow ← _build_day_block_from_daily (PDict dd) 1 "Завтра";
             mret (today +:+ nl +:+ tomorrow +:+ nl +:+ nl +:+ "Данные: Open-Meteo.com")))
    as Hfull.
  { unfold build_full_forecast_message. by rewrite py_get_dict, bind_ok, Hd. }
  rewrite Hfull, (build_no_data dd 1 n "Завтра" Hn Hle).
  split.
  - destruct (_build_day_block_from_daily (PDict dd) 0 "Сегодня") as [today|e]; [|done].
    rewrite !bind_ok. reflexivity.
  - intros H0. rewrite (build_no_data dd 0 n "Сегодня" Hn H0), !bind_ok.
    reflexivity.
Qed.

(** ** Further properties of the store *)

(** X6: a save that raises has not touched the file (and no save sends a
    message): everything that can raise in [save_last_forecast] comes before
    the write, and the write itself does not raise. *)
Theorem failed_save_writes_nothing o now chat_id api_data (w : world) (e : exn) :
  (save_last_forecast o now chat_id api_data w).1 = Raise e →
  (save_last_forecast o now chat_id api_data w).2 = w.
Proof.
  rewrite save_last_forecast_run.
  by destruct (new_store (store_file w) now chat_id api_data).
Qed.

(** X7: [get_last_forecast] only reads: the file and the outbox are what
    they were; and for a chat without an entry, in a missing file or in a
    stored dict, it returns [None]. *)
Theorem load_only_reads chat_id (w : world) :
  (get_last_forecast chat_id w).2 = w ∧
  (∀ m, loaded (store_file w) = PDict m → m !! pretty chat_id = None →
        (get_last_forecast chat_id w).1 = Ok PNone).
Proof.
  rewrite get_last_forecast_run. split; [done|].
  intros m Hm Hk. cbn [fst]. by rewrite Hm, py_get_dict, Hk.
Qed.

(** X8: over a file that is missing, unreadable or corrupt a written save
    leaves a store of exactly one entry, the new one; whatever an unreadable
    file held is replaced. *)
Theorem save_replaces_unusable_file now chat_id api_data daily text (w : world) :
  (∀ v, store_file w ≠ FileDoc v) →
  py_get api_data "daily" (PDict ∅) = Ok daily →
  build_full_forecast_message api_data = Ok text →
  save_last_forecast WriteOk now chat_id api_data w
  = (Ok (), World (FileDoc (PDict {[ pretty chat_id := cached_entry (now +:+ "Z") daily text ]}))
              (outbox w)).
Proof.
  intros Hf Hd Ht. rewrite save_last_forecast_run. unfold new_store.
  rewrite Hd, Ht, !bind_ok.
  assert (loaded (store_file w) = PDict ∅) as ->.
  { destruct (store_file w) as [| | |v]; try done. by destruct (Hf v). }
  reflexivity.
Qed.

(** X9: the last save wins: when the second of two saves for one chat is
    written and the first did not break off, the file is the one the second
    save alone would have left; nothing of the first save remains. *)
Theorem last_save_wins o1 now1 now2 chat_id api1 api2 (w : world) :
  o1 ≠ WriteBrokenOff →
  (save_last_forecast WriteOk now2 chat_id api2 w).1 = Ok () →
  save_last_forecast WriteOk now2 chat_id api2
    (save_last_forecast o1 now1 chat_id api1 w).2
  = save_last_forecast WriteOk now2 chat_id api2 w.
Proof.
  intros Ho. rewrite !save_last_forecast_run.
  destruct (new_store (store_file w) now2 chat_id api2) as [s2|e] eqn:E2; [|done].
  intros _. apply new_store_inv in E2 as (m & daily2 & text2 & Hm & Hd2 & Ht2 & ->).
  destruct (new_store (store_file w) now1 chat_id api1) as [s1|e] eqn:E1; cbn [snd].
  - apply new_store_inv in E1 as (m' & daily1 & text1 & Hm' & _ & _ & ->).
    assert (m' = m) as -> by congruence.
    cbn [store_file outbox]. unfold new_store. rewrite Hd2, Ht2, !bind_ok.
    destruct o1; [| |done]; cbn [written loaded].
    + cbn [py_setitem]. by rewrite insert_insert_eq.
    + by rewrite Hm.
  - unfold new_store. rewrite Hd2, Ht2, !bind_ok, Hm. reflexivity.
Qed.

(** Saves for two different chats, neither write breaking off: the document
    read back from the file after both is the same dict in either order (a
    dict as a map from keys to values; the order of the keys in the file is
    not part of it). *)
Lemma two_saves_same_dict oa ob now_a now_b chat_a chat_b api_a api_b (w : world) :
  chat_a ≠ chat_b →
  oa ≠ WriteBrokenOff →
  ob ≠ WriteBrokenOff →
  (save_last_forecast ob now_b chat_b api_b
     (save_last_forecast oa now_a chat_a api_a w).2).2
  = (save_last_forecast oa now_a chat_a api_a
       (save_last_forecast ob now_b chat_b api_b w).2).2.
Proof.
  intros Hab Hoa Hob.
  assert (pretty chat_a ≠ pretty chat_b) as Hk.
  { intros Heq. apply Hab. exact (inj pretty _ _ Heq). }
  rewrite !save_last_forecast_run. unfold new_store.
  destruct (py_get api_a "daily" (PDict ∅)) as [da|ea];
    destruct (py_get api_b "daily" (PDict ∅)) as [db|eb]; rewrite ?bind_ok;
    try destruct (build_full_forecast_message api_a) as [ta|ea'];
    try destruct (build_full_forecast_message api_b) as [tb|eb']; rewrite ?bind_ok;
    cbn [snd store_file outbox mbind result_bind rbind];
    destruct (loaded (store_file w)) as [| | | | | |m] eqn:El;
    cbn [py_setitem snd store_file outbox]; rewrite ?El; cbn [py_setitem snd store_file outbox];
    try reflexivity;
    destruct oa; try done; destruct ob; try done;
    cbn [written loaded py_setitem snd store_file outbox]; rewrite ?El;
    cbn [written loaded py_setitem snd store_file outbox]; try reflexivity.
  by rewrite insert_insert_ne.
Qed.

(** X10: saves for two different chats commute for every reader: when
    neither write breaks off, [get_last_forecast] returns for every chat the
    same after both saves, whichever came first (also when one of them
    raises or is not written). *)
Theorem lookups_after_two_saves oa ob now_a now_b chat_a chat_b api_a api_b (w : world)
    (chat_id : Z) :
  chat_a ≠ chat_b →
  oa ≠ WriteBrokenOff →
  ob ≠ WriteBrokenOff →
  (get_last_forecast chat_id
     (save_last_forecast ob now_b chat_b api_b
        (save_last_forecast oa now_a chat_a api_a w).2).2).1
  = (get_last_forecast chat_id
       (save_last_forecast oa now_a chat_a api_a
          (save_last_forecast ob now_b chat_b api_b w).2).2).1.
Proof.
  intros Hab Hoa Hob.
  by rewrite (two_saves_same_dict oa ob now_a now_b chat_a chat_b api_a api_b w Hab Hoa Hob).
Qed.

(** ** Further properties of the handlers *)

(** The common course of the three handlers that fetch, save and render:
    what is caught, and in which world the reply is sent. *)
Lemma fetch_and_save_run env chat_id (reply : string → M unit) (failed : M unit) (w : world) :
  try_exceptM
    (api_data ← lift (get_weather (http env));
     _ ← save_last_forecast (write env) (utcnow env) chat_id api_data;
     text ← lift (build_full_forecast_message api_data);
     reply text)
    (λ _, failed) w
  = match get_weather (http env) with
    | Raise _ => failed w
    | Ok api_data =>
        match new_store (store_file w) (utcnow env) chat_id api_data with
        | Raise _ => failed w
        | Ok store' =>
            let w' := World (written (write env) store' (store_file w)) (outbox w) in
            match build_full_forecast_message api_data with
            | Ok text => try_exceptM (reply text) (λ _, failed) w'
            | Raise _ => failed w'
            end
        end
    end.
Proof.
  unfold try_exceptM at 1. unfold mbind at 1, M_bind at 1, lift at 1.
  destruct (get_weather (http env)) as [api_data|e]; [|done].
  unfold mbind at 1, M_bind at 1. rewrite save_last_forecast_run.
  destruct (new_store _ _ _ _) as [store'|e]; [|done].
  unfold mbind at 1, M_bind at 1, lift at 1. cbn zeta.
  destruct (build_full_forecast_message api_data) as [text|e]; [|done].
  unfold try_exceptM. by destruct (reply text _) as [[]].
Qed.

Lemma new_store_text fs now chat_id api_data store' :
  new_store fs now chat_id api_data = Ok store' →
  ∃ text, build_full_forecast_message api_data = Ok text.
Proof. intros H. apply new_store_inv in H as (m & daily & text & _ & _ & Ht & _). eauto. Qed.

Lemma cmd_weather_run env chat_id (w : world) :
  cmd_weather env chat_id w
  = match get_weather (http env) with
    | Raise _ =>
        (Ok (), World (store_file w)
                  (outbox w ++ [Message chat_id "Не удалось получить прогноз. Попробуйте позже."
                                  false (Some main_kb)]))
    | Ok api_data =>
        match new_store (store_file w) (utcnow env) chat_id api_data,
              build_full_forecast_message api_data with
        | Ok store', Ok text =>
            (Ok (), World (written (write env) store' (store_file w))
                      (outbox w ++ [Message chat_id text true (Some main_kb);
                                    Message chat_id "Выберите:" false (Some make_inline_kb)]))
        | _, _ =>
            (Ok (), World (store_file w)
                      (outbox w ++ [Message chat_id "Не удалось получить прогноз. Попробуйте позже."
                                      false (Some main_kb)]))
        end
    end.
Proof.
  unfold cmd_weather.
  rewrite (fetch_and_save_run env chat_id
             (λ text, _ ← send chat_id text true (Some main_kb);
                      send chat_id "Выберите:" false (Some make_inline_kb))).
  destruct (get_weather (http env)) as [api_data|e]; [|done].
  destruct (new_store _ _ _ _) as [store'|e] eqn:E; [|done].
  destruct (new_store_text _ _ _ _ _ E) as [text ->].
  unfold try_exceptM, mbind, M_bind, send. cbn. by rewrite <- app_assoc.
Qed.

(** X11: when the request of [/weather] succeeds but [save_last_forecast]
    raises, for whatever reason (a payload that does not render, a store
    file that holds no object), the handler does not raise: the chat gets the
    one failure message and the file is what it was.  The button
    "Погода в Туле" does the same. *)
Theorem weather_failed_save env chat_id api_data e (w : world) :
  get_weather (http env) = Ok api_data →
  (save_last_forecast (write env) (utcnow env) chat_id api_data w).1 = Raise e →
  cmd_weather env chat_id w
  = (Ok (), World (store_file w)
              (outbox w ++ [Message chat_id "Не удалось получить прогноз. Попробуйте позже."
                              false (Some main_kb)])) ∧
  btn_weather_handler env chat_id w
  = (Ok (), World (store_file w)
              (outbox w ++ [Message chat_id "Не удалось получить прогноз. Попробуйте позже."
                              false (Some main_kb)])).
Proof.
  intros Hget Hsave. unfold btn_weather_handler.
  assert (∀ P : Prop, P → P ∧ P) as Hboth by (intros P HP; by split). apply Hboth.
  rewrite save_last_forecast_run in Hsave. rewrite cmd_weather_run, Hget.
  destruct (new_store _ _ _ _) as [store'|e']; [done|].
  by destruct (build_full_forecast_message api_data).
Qed.

Lemma btn_refresh_handler_run env chat_id (w : world) :
  btn_refresh_handler env chat_id w
  = match get_weather (http env) with
    | Raise _ =>
        (Ok (), World (store_file w)
                  (outbox w ++ [Message chat_id "Не удалось обновить прогноз. Попробуйте позже."
                                  false (Some main_kb)]))
    | Ok api_data =>
        match new_store (store_file w) (utcnow env) chat_id api_data,
              build_full_forecast_message api_data with
        | Ok store', Ok text =>
            (Ok (), World (written (write env) store' (store_file w))
                      (outbox w ++ [Message chat_id ("Обновлено:" +:+ nl +:+ nl +:+ text)
                                      true (Some main_kb);
                                    Message chat_id "Выберите:" false (Some make_inline_kb)]))
        | _, _ =>
            (Ok (), World (store_file w)
                      (outbox w ++ [Message chat_id "Не удалось обновить прогноз. Попробуйте позже."
                                      false (Some main_kb)]))
        end
    end.
Proof.
  unfold btn_refresh_handler.
  rewrite (fetch_and_save_run env chat_id
             (λ text, _ ← send chat_id ("Обновлено:" +:+ nl +:+ nl +:+ text) true (Some main_kb);
                      send chat_id "Выберите:" false (Some make_inline_kb))).
  destruct (get_weather (http env)) as [api_data|e]; [|done].
  destruct (new_store _ _ _ _) as [store'|e] eqn:E; [|done].
  destruct (new_store_text _ _ _ _ _ E) as [text ->].
  unfold try_exceptM, mbind, M_bind, send. cbn. by rewrite <- app_assoc.
Qed.

Lemma cb_refresh_run env chat_id (w : world) :
  cb_refresh env chat_id w
  = match get_weather (http env) with
    | Raise _ =>
        (Ok (), World (store_file w)
                  (outbox w ++ [Message chat_id "Не удалось обновить прогноз." false (Some main_kb)]))
    | Ok api_data =>
        match new_store (store_file w) (utcnow env) chat_id api_data,
              build_full_forecast_message api_data with
        | Ok store', Ok text =>
            (Ok (), World (written (write env) store' (store_file w))
                      (outbox w ++ [Message chat_id ("Обновлено:" +:+ nl +:+ nl +:+ text)
                                      true (Some main_kb)]))
        | _, _ =>
            (Ok (), World (store_file w)
                      (outbox w ++ [Message chat_id "Не удалось обновить прогноз." false (Some main_kb)]))
        end
    end.
Proof.
  unfold cb_refresh.
  rewrite (fetch_and_save_run env chat_id
             (λ text, send chat_id ("Обновлено:" +:+ nl +:+ nl +:+ text) true (Some main_kb))).
  destruct (get_weather (http env)) as [api_data|e]; [|done].
  destruct (new_store _ _ _ _) as [store'|e] eqn:E; [|done].
  by destruct (new_store_text _ _ _ _ _ E) as [text ->].
Qed.

(** X12: the reply button "Обновить" and the inline button "refresh" never
    raise and end in one of two ways.  Either the chat got the one failure
    message of the handler and the file is what it was; or the request
    succeeded and the payload rendered, the file is what the save left, and
    the chat got the full message after "Обновлено:" and an empty line,
    which the reply button follows with the day selector and the inline
    button with nothing. *)
Theorem refresh_outcomes env chat_id (w : world) :
  (btn_refresh_handler env chat_id w).1 = Ok () ∧
  (cb_refresh env chat_id w).1 = Ok () ∧
  ((btn_refresh_handler env chat_id w).2
   = World (store_file w)
       (outbox w ++ [Message chat_id "Не удалось обновить прогноз. Попробуйте позже."
                       false (Some main_kb)]) ∧
   (cb_refresh env chat_id w).2
   = World (store_file w)
       (outbox w ++ [Message chat_id "Не удалось обновить прогноз." false (Some main_kb)])
   ∨ ∃ api_data text store',
       get_weather (http env) = Ok api_data ∧
       build_full_forecast_message api_data = Ok text ∧
       new_store (store_file w) (utcnow env) chat_id api_data = Ok store' ∧
       (btn_refresh_handler env chat_id w).2
       = World (written (write env) store' (store_file w))
           (outbox w ++ [Message chat_id ("Обновлено:" +:+ nl +:+ nl +:+ text)
                           true (Some main_kb);
                         Message chat_id "Выберите:" false (Some make_inline_kb)]) ∧
       (cb_refresh env chat_id w).2
       = World (written (write env) store' (store_file w))
           (outbox w ++ [Message chat_id ("Обновлено:" +:+ nl +:+ nl +:+ text)
                           true (Some main_kb)])).
Proof.
  rewrite btn_refresh_handler_run, cb_refresh_run.
  destruct (get_weather (http env)) as [api_data|e]; [|by split; [|split; [|left]]].
  destruct (new_store _ _ _ _) as [store'|e] eqn:E.
  - destruct (new_store_text _ _ _ _ _ E) as [text Ht]. rewrite Ht.
    split; [done|]. split; [done|]. right. by exists api_data, text, store'.
  - split; [|split]; [by destruct (build_full_forecast_message api_data)..|].
    left. by destruct (build_full_forecast_message api_data).
Qed.






(** X14: when [get_last_forecast] finds nothing for the chat (or something
    that counts as false, such as an empty dict), the button "Последнее"
    sends the one message that nothing is saved, and leaves the file alone. *)
Theorem last_without_entry chat_id last (w : world) :
  (get_last_forecast chat_id w).1 = Ok last →
  py_truthy last = false →
  btn_last_handler chat_id w
  = (Ok (), World (store_file w)
              (outbox w ++
               [Message chat_id
                  "Нет сохранённого прогноза для этого чата. Нажми «🌤 Погода в Туле» чтобы получить текущий прогноз."
                  false (Some main_kb)])).
Proof.
  intros Hlast Hfalse. unfold btn_last_handler.
  rewrite get_last_forecast_run in Hlast. cbn [fst] in Hlast.
  unfold mbind at 1, M_bind at 1. by rewrite get_last_forecast_run, Hlast, Hfalse.
Qed.

(** The day callback once the text after "day:" is read as an integer. *)
Lemma cb_day_callback_parsed env chat_id idx_str idx (w : world) :
  py_int idx_str = Ok idx →
  cb_day_callback env chat_id ("day:" +:+ idx_str) w
  = (last ← get_last_forecast chat_id;
     if py_truthy last then
       daily ← lift (py_get last "daily" (PDict ∅));
       block ← lift (_build_day_block_from_daily daily idx (day_label idx));
       send chat_id block true (Some main_kb)
     else
       try_exceptM
         (api_data ← lift (get_weather (http env));
          _ ← save_last_forecast (write env) (utcnow env) chat_id api_data;
          daily ← lift (py_get api_data "daily" (PDict ∅));
          block ← lift (_build_day_block_from_daily daily idx (day_label idx));
          send chat_id block true (Some main_kb))
         (λ _, send chat_id "Не удалось получить прогноз." false (Some main_kb))) w.
Proof.
  intros Hint. unfold cb_day_callback.
  change (split_colon_once ("day:" +:+ idx_str)) with ["day"; idx_str].
  cbv beta iota. by rewrite Hint.
Qed.

(** X15: callback data "day:" followed by ASCII text [int] does not take
    gets the one answer "Некорректная кнопка."; nothing is fetched, read or
    saved. *)
Theorem day_callback_bad_number env chat_id idx_str (w : world) :
  ascii_only idx_str = true →
  raises (py_int idx_str) →
  cb_day_callback env chat_id ("day:" +:+ idx_str) w
  = (Ok (), World (store_file w)
              (outbox w ++ [Message chat_id "Некорректная кнопка." false None])).
Proof.
  intros _ [e He]. unfold cb_day_callback.
  change (split_colon_once ("day:" +:+ idx_str)) with ["day"; idx_str].
  cbv beta iota. by rewrite He.
Qed.

(** X16: whatever passes the filter of the day callback is "day:" followed
    by a rest, and [split(":", 1)] yields exactly the two parts "day" and
    that rest: the unpacking in the handler cannot fail. *)
Theorem day_filter_payload (data : string) :
  is_day_callback data = true →
  ∃ idx_str, data = "day:" +:+ idx_str ∧ split_colon_once data = ["day"; idx_str].
Proof.
  unfold is_day_callback. intros H. apply String.prefix_correct in H.
  destruct data as [|a [|b [|c [|e rest]]]]; try discriminate H.
  cbn in H. injection H as -> -> -> ->. by exists rest.
Qed.

(** X17: the day callback on a chat without a cached forecast, when the
    request fails or the save raises: the chat gets the one failure message
    of this handler and the file is what it was. *)
Theorem day_callback_miss_fetch_failed env chat_id idx_str idx last (w : world) :
  py_int idx_str = Ok idx →
  (get_last_forecast chat_id w).1 = Ok last →
  py_truthy last = false →
  raises (get_weather (http env)) ∨
  (∃ api_data, get_weather (http env) = Ok api_data ∧
               raises (new_store (store_file w) (utcnow env) chat_id api_data)) →
  cb_day_callback env chat_id ("day:" +:+ idx_str) w
  = (Ok (), World (store_file w)
              (outbox w ++ [Message chat_id "Не удалось получить прогноз." false (Some main_kb)])).
Proof.
  intros Hint Hlast Hfalse Hfail. rewrite (cb_day_callback_parsed _ _ _ idx) by done.
  rewrite get_last_forecast_run in Hlast. cbn [fst] in Hlast.
  unfold mbind at 1, M_bind at 1. rewrite get_last_forecast_run, Hlast, Hfalse.
  unfold try_exceptM. unfold mbind at 1, M_bind at 1, lift at 1.
  destruct Hfail as [[e ->]|(api_data & -> & [e He])]; [done|].
  unfold mbind at 1, M_bind at 1. by rewrite save_last_forecast_run, He.
Qed.

(** X18: the day callback on a chat without a cached forecast, when the
    request and the save go well: the file is what the save left, and the
    chat gets the block of the day, or, when that block cannot be rendered,
    the failure message; so here the failure message does not mean that
    nothing was saved. *)
Theorem day_callback_miss_fetched env chat_id idx_str idx last api_data store' daily (w : world) :
  py_int idx_str = Ok idx →
  (get_last_forecast chat_id w).1 = Ok last →
  py_truthy last = false →
  get_weather (http env) = Ok api_data →
  new_store (store_file w) (utcnow env) chat_id api_data = Ok store' →
  py_get api_data "daily" (PDict ∅) = Ok daily →
  cb_day_callback env chat_id ("day:" +:+ idx_str) w
  = (Ok (), World (written (write env) store' (store_file w))
              (outbox w ++
               [match _build_day_block_from_daily daily idx (day_label idx) with
                | Ok block => Message chat_id block true (Some main_kb)
                | Raise _ => Message chat_id "Не удалось получить прогноз." false (Some main_kb)
                end])).
Proof.
  intros Hint Hlast Hfalse Hget Hnew Hd. rewrite (cb_day_callback_parsed _ _ _ idx) by done.
  rewrite get_last_forecast_run in Hlast. cbn [fst] in Hlast.
  unfold mbind at 1, M_bind at 1. rewrite get_last_forecast_run, Hlast, Hfalse.
  unfold try_exceptM. unfold mbind at 1, M_bind at 1, lift at 1. rewrite Hget.
  unfold mbind at 1, M_bind at 1. rewrite save_last_forecast_run, Hnew.
  unfold mbind, M_bind, lift. rewrite Hd.
  by destruct (_build_day_block_from_daily daily idx (day_label idx)).
Qed.

(** X19: the day callback on a cached forecast is not guarded: with an
    index below [-len(dates)] the [IndexError] of the formatter leaves the
    handler, and the chat gets no message. *)
Theorem day_callback_cached_below_range env chat_id idx_str idx last d dates (w : world) :
  py_int idx_str = Ok idx →
  (get_last_forecast chat_id w).1 = Ok last →
  py_truthy last = true →
  py_get last "daily" (PDict ∅) = Ok (PDict d) →
  default (PList []) (d !! "time") = PList dates →
  idx < - Z.of_nat (length dates) →
  cb_day_callback env chat_id ("day:" +:+ idx_str) w = (Raise IndexError, w).
Proof.
  intros Hint Hlast Htrue Hd Hdates Hidx.
  destruct (cb_day_callback_cached env chat_id idx_str idx last (PDict d) w) as [_ ->];
    try done.
  by rewrite (build_below_dates d dates idx (day_label idx) Hdates Hidx).
Qed.


(** X21: every button of the inline keyboard is taken by exactly one of the
    two callback filters; a day button carries "day:" and an integer, and the
    label the handler gives the block of that integer is the caption of the
    button. *)
Theorem inline_buttons_are_handled :
  Forall (λ button : string * option string,
            ∃ data, button.2 = Some data ∧
              (is_refresh_callback data = true ∧ is_day_callback data = false
               ∨ is_day_callback data = true ∧ is_refresh_callback data = false ∧
                 ∃ idx_str idx, data = "day:" +:+ idx_str ∧ py_int idx_str = Ok idx ∧
                                day_label idx = button.1))
    (concat (keyboard_rows make_inline_kb)).
Proof.
  constructor; [|constructor; [|constructor; [|constructor]]].
  - exists "day:0". split; [done|]. right. repeat split. by exists "0", 0.
  - exists "day:1". split; [done|]. right. repeat split. by exists "1", 1.
  - exists "refresh". split; [done|]. by left.
Qed.

(** ** [int(str(z))] *)

Lemma pretty_N_char_digit (c : N) :
  (c < 10)%N → digit_of (pretty_N_char c) = Some (Z.of_N c).
Proof.
  intros Hc.
  assert (c = 0 ∨ c = 1 ∨ c = 2 ∨ c = 3 ∨ c = 4 ∨ c = 5 ∨ c = 6 ∨ c = 7 ∨ c = 8 ∨ c = 9)%N
    as Hcases by lia.
  repeat (destruct Hcases as [->|Hcases]; [reflexivity|]). by subst.
Qed.

Lemma pretty_N_char_plain (c : N) :
  is_space (pretty_N_char c) = false ∧
  pretty_N_char c ≠ "-"%char ∧ pretty_N_char c ≠ "+"%char.
Proof. unfold pretty_N_char. repeat case_match; done. Qed.

Lemma no_space_pretty_N_go (x : N) (s : string) :
  no_space s = true → no_space (pretty_N_go x s) = true.
Proof.
  revert s. induction (N.lt_wf_0 x) as [x _ IH]; intros s Hs.
  assert (x = 0 ∨ 0 < x)%N as [->|Hx] by lia; [by rewrite pretty_N_go_0|].
  rewrite pretty_N_go_step by done. apply IH; [by apply N.div_lt|].
  cbn [no_space]. by rewrite (proj1 (pretty_N_char_plain _)), Hs.
Qed.

Lemma pretty_N_go_head (x : N) (s : string) :
  (0 < x)%N → ∃ c rest, pretty_N_go x s = String (pretty_N_char c) rest.
Proof.
  revert s. induction (N.lt_wf_0 x) as [x _ IH]; intros s Hx.
  rewrite pretty_N_go_step by done.
  destruct (N.eq_0_gt_0_cases (x `div` 10)) as [->|Hq].
  - rewrite pretty_N_go_0. by eexists _, _.
  - apply IH; [by apply N.div_lt|done].
Qed.

(** The digits of [x], read from the left, add [x] to the shifted
    accumulator. *)
Lemma digits_pretty_N_go (x : N) :
  (0 < x)%N →
  ∃ k : nat, ∀ s acc flag,
    digits (pretty_N_go x s) acc flag = digits s (acc * 10 ^ Z.of_nat k + Z.of_N x) true.
Proof.
  induction (N.lt_wf_0 x) as [x _ IH]; intros Hx.
  pose proof (N.div_mod x 10 ltac:(done)) as Hdm.
  pose proof (N.mod_lt x 10 ltac:(done)) as Hlt.
  destruct (N.eq_0_gt_0_cases (x `div` 10)) as [Hq|Hq].
  - exists 1%nat. intros s acc flag.
    rewrite pretty_N_go_step, Hq, pretty_N_go_0 by done.
    cbn [digits]. rewrite pretty_N_char_digit by done. f_equal. lia.
  - destruct (IH (x `div` 10)%N) as [k Hk]; [by apply N.div_lt|done|].
    exists (S k). intros s acc flag.
    rewrite pretty_N_go_step, Hk by done.
    cbn [digits]. rewrite pretty_N_char_digit by done. f_equal.
    rewrite Nat2Z.inj_succ, Z.pow_succ_r by lia. lia.
Qed.

Lemma lstrip_no_space (s : string) : no_space s = true → lstrip s = s.
Proof.
  destruct s as [|a s]; [done|]. cbn [no_space lstrip].
  by destruct (is_space a).
Qed.

Lemma rstrip_no_space (s : string) : no_space s = true → rstrip s = s.
Proof.
  induction s as [|a s IH]; [done|]. cbn [no_space rstrip].
  destruct (is_space a) eqn:Ea; [done|]. cbn [negb andb]. intros Hs.
  rewrite (IH Hs). by destruct s.
Qed.

Lemma py_int_pretty_pos (p : positive) :
  no_space (pretty_N_go (N.pos p) "") = true ∧
  (∃ c rest, pretty_N_go (N.pos p) "" = String (pretty_N_char c) rest) ∧
  digits (pretty_N_go (N.pos p) "") 0 false = Some (Z.pos p).
Proof.
  split; [by apply no_space_pretty_N_go|]. split; [by apply pretty_N_go_head|].
  destruct (digits_pretty_N_go (N.pos p)) as [k Hk]; [done|].
  rewrite Hk. cbn [digits]. f_equal.
Qed.

(** The decimal form of an integer is read back as that integer, and behind
    "day:" it passes the filter of the day callback. *)
Lemma py_int_pretty (z : Z) :
  py_int (pretty z) = Ok z ∧
  is_day_callback ("day:" +:+ pretty z) = true ∧
  split_colon_once ("day:" +:+ pretty z) = ["day"; pretty z].
Proof.
  split; [|split; [|done]].
  2:{ unfold is_day_callback. cbn. by destruct (pretty z). }
  destruct z as [|p|p]; [done|..].
  - destruct (py_int_pretty_pos p) as (Hns & (c & rest & Hhead) & Hd).
    assert (pretty (Z.pos p) = pretty_N_go (N.pos p) "") as -> by done.
    unfold py_int. rewrite lstrip_no_space, rstrip_no_space by done.
    destruct (pretty_N_char_plain c) as (_ & Hminus & Hplus).
    assert (∀ body : string, body = String (pretty_N_char c) rest →
              match body with
              | String "-" r => (true, r)
              | String "+" r => (false, r)
              | _ => (false, body)
              end = (false, body)) as Hsign.
    { intros body ->. unfold pretty_N_char. by repeat case_match. }
    rewrite (Hsign _ Hhead). by rewrite Hd.
  - destruct (py_int_pretty_pos p) as (Hns & _ & Hd).
    assert (pretty (Z.neg p) = String "-" (pretty_N_go (N.pos p) "")) as -> by done.
    unfold py_int.
    rewrite lstrip_no_space, rstrip_no_space by (cbn [no_space]; by rewrite ?Hns).
    by rewrite Hd.
Qed.

(** X22: for an integer [z] of at most 4300 digits, the callback data "day:"
    followed by the decimal form of [z] passes the filter, and on a chat with
    a cached forecast the handler renders the day [z] of the cached "daily"
    under the label of [z] and sends it, or raises what the formatter
    raises. *)
Theorem day_callback_decimal_payload env chat_id z last daily (w : world) :
  Z.abs z < 10 ^ 4300 →
  (get_last_forecast chat_id w).1 = Ok last →
  py_truthy last = true →
  py_get last "daily" (PDict ∅) = Ok daily →
  is_day_callback ("day:" +:+ pretty z) = true ∧
  cb_day_callback env chat_id ("day:" +:+ pretty z) w =
  match _build_day_block_from_daily daily z (day_label z) with
  | Ok block =>
      (Ok (), World (store_file w) (outbox w ++ [Message chat_id block true (Some main_kb)]))
  | Raise e => (Raise e, w)
  end.
Proof.
  intros _ Hlast Ht Hdaily.
  destruct (py_int_pretty z) as (Hint & _ & _).
  by apply (cb_day_callback_cached env chat_id (pretty z) z last daily w).
Qed.

(** ** Handlers that only read, and a "daily" that is no object *)

(** X23: the greeting, the fallback and the button "Последнее" never write
    the store file, on any path, the raising ones included. *)
Theorem reading_handlers_keep_file chat_id (w : world) :
  store_file (cmd_start chat_id w).2 = store_file w ∧
  store_file (fallback chat_id w).2 = store_file w ∧
  store_file (btn_last_handler chat_id w).2 = store_file w.
Proof.
  split; [done|]. split; [done|].
  unfold btn_last_handler. unfold mbind at 1, M_bind at 1.
  rewrite get_last_forecast_run.
  destruct (py_get (loaded (store_file w)) (pretty chat_id) PNone) as [last|e]; [|done].
  destruct (py_truthy last); [|done].
  unfold mbind, M_bind, lift.
  destruct (py_get last "ts" (PStr "—")) as [ts|e]; [|done].
  destruct (py_get last "text" (PStr "—")) as [text|e]; [|done].
  by destruct (str_concat _ text).
Qed.

Lemma day_block_of_non_dict (daily : pyval) (idx : Z) (label : string) :
  (∀ d, daily ≠ PDict d) →
  _build_day_block_from_daily daily idx label = Raise AttributeError.
Proof. intros Hd. destruct daily; try done. by destruct (Hd d). Qed.

(** X24: a payload whose "daily" is there but is no object (null, a list,
    a number) does not render: the formatter raises [AttributeError] at the
    first [daily.get], so [/weather] answers with the failure message and
    saves nothing, while a payload without "daily" renders. *)
Theorem non_object_daily_fails env chat_id d daily (w : world) :
  get_weather (http env) = Ok (PDict d) →
  d !! "daily" = Some daily →
  (∀ dd, daily ≠ PDict dd) →
  build_full_forecast_message (PDict d) = Raise AttributeError ∧
  cmd_weather env chat_id w
  = (Ok (), World (store_file w)
              (outbox w ++ [Message chat_id "Не удалось получить прогноз. Попробуйте позже."
                              false (Some main_kb)])).
Proof.
  intros Hget Hd Hno.
  assert (build_full_forecast_message (PDict d) = Raise AttributeError) as Hr.
  { unfold build_full_forecast_message. rewrite py_get_dict, Hd, bind_ok.
    cbn [default from_option id].
    by rewrite (day_block_of_non_dict daily 0 "Сегодня" Hno). }
  split; [done|].
  rewrite cmd_weather_run, Hget. unfold new_store.
  rewrite py_get_dict, bind_ok, Hr, bind_raise. done.
Qed.

End Bot.

(** ** The statements at concrete inputs *)

Lemma no_data_beyond_dates_witness :
  py_len (default (PList []) (dates_only_fields !! "time")) = Ok 1 ∧
  1 >= 1 ∧
  _build_day_block_from_daily sample_repr dates_only 1 "Завтра"
  = Ok ("*" +:+ "Завтра" +:+ "*" +:+ nl +:+ "Нет данных." +:+ nl).
Proof.
  split; [vm_compute; reflexivity|]. split; [lia|].
  apply (no_data_beyond_dates sample_repr dates_only_fields 1 1 "Завтра");
    [vm_compute; reflexivity|lia].
Defined.



Lemma persistence_failures_absorbed_witness :
  py_get sample_api "daily" (PDict ∅) = Ok scenario_day ∧
  build_full_forecast_message sample_repr sample_api = Ok sample_text ∧
  (∀ v, store_file other_store = FileDoc v → ∃ m, v = PDict m) ∧
  (save_last_forecast sample_repr WriteBrokenOff "2024-03-05T10:00:00" 1
     sample_api other_store).1 = Ok ().
Proof.
  assert (py_get sample_api "daily" (PDict ∅) = Ok scenario_day) as Hd
    by (vm_compute; reflexivity).
  assert (build_full_forecast_message sample_repr sample_api = Ok sample_text) as Ht
    by (vm_compute; reflexivity).
  assert (∀ v, store_file other_store = FileDoc v → ∃ m, v = PDict m) as Hdoc
    by (intros v Hv; injection Hv as <-; eexists; reflexivity).
  split; [exact Hd|]. split; [exact Ht|]. split; [exact Hdoc|].
  exact (proj2 (proj2 (proj2 (persistence_failures_absorbed sample_repr)))
           WriteBrokenOff "2024-03-05T10:00:00" 1 sample_api scenario_day sample_text
           other_store Hd Ht Hdoc).
Defined.



(** Two saves for one chat whose writes are both refused leave no entry;
    and when only the first is written, the entry is still the first one. *)
Lemma unwritten_second_save_overwrites_nothing :
  (let first := save_last_forecast sample_repr WriteRefused "2024-03-05T10:00:00" 42
                  sample_api empty_world in
   let second := save_last_forecast sample_repr WriteRefused "2024-03-05T11:00:00" 42
                   sample_api first.2 in
   first.1 = Ok () ∧ second.1 = Ok () ∧
   (get_last_forecast 42 second.2).1 = Ok PNone) ∧
  (let first := save_last_forecast sample_repr WriteOk "2024-03-05T10:00:00" 42
                  sample_api empty_world in
   let second := save_last_forecast sample_repr WriteRefused "2024-03-05T11:00:00" 42
                   sample_api first.2 in
   first.1 = Ok () ∧ second.1 = Ok () ∧
   (get_last_forecast 42 second.2).1
   = Ok (cached_entry "2024-03-05T10:00:00Z" scenario_day sample_text)).
Proof. repeat split; vm_compute; reflexivity. Qed.

Lemma save_twice_one_entry_witness :
  let first := save_last_forecast sample_repr WriteOk "2024-03-05T10:00:00" 42
                 sample_api empty_world in
  let second := save_last_forecast sample_repr WriteOk "2024-03-05T11:00:00" 42
                  sample_api first.2 in
  first.1 = Ok () ∧ second.1 = Ok () ∧
  ∃ m daily2 text2,
    store_file second.2 = FileDoc (PDict m) ∧
    py_get sample_api "daily" (PDict ∅) = Ok daily2 ∧
    build_full_forecast_message sample_repr sample_api = Ok text2 ∧
    filter (λ kv, kv.1 = pretty 42) (map_to_list m)
    = [(pretty 42, cached_entry ("2024-03-05T11:00:00" +:+ "Z") daily2 text2)] ∧
    (WriteOk = WriteOk →
     ∃ m1, store_file first.2 = FileDoc (PDict m1) ∧ dom m = dom m1 ∧ size m = size m1).
Proof.
  cbv zeta.
  assert ((save_last_forecast sample_repr WriteOk "2024-03-05T10:00:00" 42
             sample_api empty_world).1 = Ok ()) as H1 by (vm_compute; reflexivity).
  assert ((save_last_forecast sample_repr WriteOk "2024-03-05T11:00:00" 42 sample_api
             (save_last_forecast sample_repr WriteOk "2024-03-05T10:00:00" 42
                sample_api empty_world).2).1 = Ok ()) as H2 by (vm_compute; reflexivity).
  split; [exact H1|]. split; [exact H2|].
  exact (save_twice_one_entry sample_repr WriteOk "2024-03-05T10:00:00" "2024-03-05T11:00:00"
           42 sample_api sample_api empty_world H1 H2).
Defined.

(** The store holds the entry of chat 2; a save for chat 1 whose write
    breaks off after the file was truncated loses it. *)
Lemma broken_write_loses_other_chat :
  let saved := save_last_forecast sample_repr WriteBrokenOff "2024-03-05T10:00:00" 1
                 sample_api other_store in
  1 ≠ 2 ∧ readable (store_file other_store) ∧
  (get_last_forecast 2 other_store).1 = Ok other_entry ∧
  saved.1 = Ok () ∧
  (get_last_forecast 2 saved.2).1 = Ok PNone.
Proof. repeat split; try (vm_compute; reflexivity). discriminate. Qed.

Lemma save_leaves_other_chats_witness :
  1 ≠ 2 ∧ readable (store_file other_store) ∧ WriteOk ≠ WriteBrokenOff ∧
  let saved := save_last_forecast sample_repr WriteOk "2024-03-05T10:00:00" 1
                 sample_api other_store in
  (get_last_forecast 2 saved.2).1 = (get_last_forecast 2 other_store).1 ∧
  ∀ key dflt, key ≠ pretty 1 →
    py_get (loaded (store_file saved.2)) key dflt
    = py_get (loaded (store_file other_store)) key dflt.
Proof.
  assert (1 ≠ 2) as H12 by lia.
  assert (readable (store_file other_store)) as Hr by exact I.
  assert (WriteOk ≠ WriteBrokenOff) as Ho by discriminate.
  split; [exact H12|]. split; [exact Hr|]. split; [exact Ho|].
  exact (save_leaves_other_chats sample_repr WriteOk "2024-03-05T10:00:00" 1 2
           sample_api other_store H12 Hr Ho).
Defined.

Lemma fetch_failure_leaves_store_witness :
  raises (get_weather (http (Environment RequestTimeout WriteOk "2024-03-05T10:00:00"))) ∧
  cmd_weather sample_repr (Environment RequestTimeout WriteOk "2024-03-05T10:00:00") 2 other_store
  = (Ok (), World (store_file other_store)
              (outbox other_store
               ++ [Message 2 "Не удалось получить прогноз. Попробуйте позже." false (Some main_kb)])) ∧
  store_file (cmd_weather sample_repr
                (Environment RequestTimeout WriteOk "2024-03-05T10:00:00") 2 other_store).2
  = store_file other_store.
Proof.
  assert (raises (get_weather (http (Environment RequestTimeout WriteOk "2024-03-05T10:00:00"))))
    as Hr by (exists Timeout; reflexivity).
  split; [exact Hr|].
  exact (fetch_failure_leaves_store sample_repr
           (Environment RequestTimeout WriteOk "2024-03-05T10:00:00") 2 other_store Hr).
Defined.

Lemma negative_index_counts_from_end_witness :
  aligned scenario_fields 1 = true ∧
  - 1 <= -1 < 0 ∧
  _build_day_block_from_daily sample_repr scenario_day (-1) "Завтра"
  = _build_day_block_from_daily sample_repr scenario_day (1 + -1) "Завтра" ∧
  _build_day_block_from_daily sample_repr scenario_day (-1) "Завтра"
  ≠ Ok (no_data_block "Завтра") ∧
  (code_hashable scenario_fields (1 + -1) →
   returns (_build_day_block_from_daily sample_repr scenario_day (-1) "Завтра")) ∧
  (∀ env chat_id idx_str last w,
     py_int idx_str = Ok (-1) →
     (get_last_forecast chat_id w).1 = Ok last →
     py_truthy last = true →
     py_get last "daily" (PDict ∅) = Ok scenario_day →
     is_day_callback ("day:" +:+ idx_str) = true ∧
     cb_day_callback sample_repr env chat_id ("day:" +:+ idx_str) w =
     match _build_day_block_from_daily sample_repr scenario_day (1 + -1) "Завтра" with
     | Ok block =>
         (Ok (), World (store_file w) (outbox w ++ [Message chat_id block true (Some main_kb)]))
     | Raise e => (Raise e, w)
     end).
Proof.
  assert (aligned scenario_fields 1 = true) as Ha by (vm_compute; reflexivity).
  assert (- 1 <= -1 < 0) as Hi by lia.
  split; [exact Ha|]. split; [exact Hi|].
  exact (negative_index_counts_from_end sample_repr scenario_fields 1 (-1) "Завтра" Ha Hi).
Defined.

(** The callback data "day:-1" on a chat whose cached forecast has one day:
    the chat gets the block of that day under the label "Завтра". *)
Example day_minus_one_callback :
  let env := Environment RequestTimeout WriteOk "2024-03-05T11:00:00" in
  let cached := (save_last_forecast sample_repr WriteOk "2024-03-05T10:00:00" 42
                   sample_api empty_world).2 in
  is_day_callback "day:-1" = true ∧
  (cb_day_callback sample_repr env 42 "day:-1" cached).1 = Ok () ∧
  outbox (cb_day_callback sample_repr env 42 "day:-1" cached).2
  = [Message 42
       ("*Завтра — 05.03.2024*" +:+ nl +:+ "Пасмурно" +:+ nl
        +:+ "Макс: +5°C, мин: -3°C" +:+ nl +:+ "Осадки: 0 мм" +:+ nl
        +:+ "Ветер: 12 м/с" +:+ nl)
       true (Some main_kb)].
Proof. repeat split; vm_compute; reflexivity. Qed.

(** ** The further statements at concrete inputs *)

Lemma day_block_fieldwise_witness :
  default (PList []) (scenario_fields !! "time") = PList [PStr "2024-03-05"] ∧
  default (PList []) (scenario_fields !! "temperature_2m_max") = PList [PFloat 5.2] ∧
  default (PList []) (scenario_fields !! "temperature_2m_min") = PList [PInt (-3)] ∧
  default (PList []) (scenario_fields !! "precipitation_sum") = PList [PInt 0] ∧
  default (PList []) (scenario_fields !! "weathercode") = PList [PInt 3] ∧
  default (PList []) (scenario_fields !! "windspeed_10m_max") = PList [PInt 12] ∧
  0 <= 0 ∧
  [PStr "2024-03-05"] !! Z.to_nat 0 = Some (PStr "2024-03-05") ∧
  ascii_date (PStr "2024-03-05") = true ∧
  _build_day_block_from_daily sample_repr (PDict scenario_fields) 0 "Сегодня"
  = Ok ("*Сегодня — 05.03.2024*" +:+ nl +:+ "Пасмурно" +:+ nl
        +:+ "Макс: +5°C, мин: -3°C" +:+ nl +:+ "Осадки: 0 мм" +:+ nl
        +:+ "Ветер: 12 м/с" +:+ nl).
Proof.
  assert (0 <= 0) as Hi by lia.
  do 6 (split; [vm_compute; reflexivity|]). split; [exact Hi|]. split; [reflexivity|].
  split; [reflexivity|].
  exact (day_block_fieldwise sample_repr scenario_fields 0 "Сегодня"
           [PStr "2024-03-05"] [PFloat 5.2] [PInt (-3)] [PInt 0] [PInt 3] [PInt 12]
           (PStr "2024-03-05") eq_refl eq_refl eq_refl eq_refl eq_refl eq_refl Hi eq_refl
           eq_refl).
Defined.

Lemma day_block_total_witness :
  fields_are_lists dates_only_fields = true ∧
  0 <= 0 ∧
  code_hashable dates_only_fields 0 ∧
  ∃ block n,
    _build_day_block_from_daily sample_repr (PDict dates_only_fields) 0 "Сегодня" = Ok block ∧
    py_len (default (PList []) (dates_only_fields !! "time")) = Ok n ∧
    block ≠ "" ∧
    (block = no_data_block "Сегодня" ↔ n <= 0).
Proof.
  assert (fields_are_lists dates_only_fields = true) as Hl by (vm_compute; reflexivity).
  assert (0 <= 0) as Hi by lia.
  assert (code_hashable dates_only_fields 0) as Hh.
  { intros l c Hw Hc. vm_compute in Hw. injection Hw as <-. discriminate Hc. }
  split; [exact Hl|]. split; [exact Hi|]. split; [exact Hh|].
  exact (day_block_total sample_repr dates_only_fields 0 "Сегодня" Hl Hi Hh).
Defined.

Lemma index_below_dates_raises_witness :
  default (PList []) (dates_only_fields !! "time") = PList [PStr "2024-03-05"] ∧
  -2 < - Z.of_nat (length [PStr "2024-03-05"]) ∧
  _build_day_block_from_daily sample_repr (PDict dates_only_fields) (-2) "Завтра"
  = Raise IndexError.
Proof.
  assert (-2 < - Z.of_nat (length [PStr "2024-03-05"])) as Hi by (cbn; lia).
  split; [vm_compute; reflexivity|]. split; [exact Hi|].
  exact (index_below_dates_raises sample_repr dates_only_fields [PStr "2024-03-05"] (-2)
           "Завтра" eq_refl Hi).
Defined.

Lemma format_temp_shape_witness :
  is_number (PStr "warm") = false ∧ _format_temp (PStr "warm") = "—".
Proof.
  assert (is_number (PStr "warm") = false) as Hn by reflexivity.
  split; [exact Hn|].
  exact (proj1 (proj2 (format_temp_shape (PStr "warm"))) Hn).
Defined.

Lemma full_message_short_forecast_witness :
  default (PDict ∅) ((∅ : gmap string pyval) !! "daily") = PDict ∅ ∧
  py_len (default (PList []) ((∅ : gmap string pyval) !! "time")) = Ok 0 ∧
  0 <= 1 ∧ 0 <= 0 ∧
  build_full_forecast_message sample_repr (PDict ∅)
  = Ok ("*Сегодня*" +:+ nl +:+ "Нет данных." +:+ nl +:+ nl
        +:+ "*Завтра*" +:+ nl +:+ "Нет данных." +:+ nl
        +:+ nl +:+ nl +:+ "Данные: Open-Meteo.com").
Proof.
  assert (0 <= 1) as H1 by lia. assert (0 <= 0) as H0 by lia.
  split; [reflexivity|]. split; [reflexivity|]. split; [exact H1|]. split; [exact H0|].
  exact (proj2 (full_message_short_forecast sample_repr ∅ ∅ 0 eq_refl eq_refl H1) H0).
Defined.

Lemma failed_save_writes_nothing_witness :
  (save_last_forecast sample_repr WriteOk "2024-03-05T10:00:00" 1 (PList []) other_store).1
  = Raise AttributeError ∧
  (save_last_forecast sample_repr WriteOk "2024-03-05T10:00:00" 1 (PList []) other_store).2
  = other_store.
Proof.
  assert ((save_last_forecast sample_repr WriteOk "2024-03-05T10:00:00" 1 (PList [])
             other_store).1 = Raise AttributeError) as Hr by (vm_compute; reflexivity).
  split; [exact Hr|].
  exact (failed_save_writes_nothing sample_repr WriteOk "2024-03-05T10:00:00" 1 (PList [])
           other_store AttributeError Hr).
Defined.

Lemma load_only_reads_witness :
  loaded (store_file other_store) = PDict {[ "2" := other_entry ]} ∧
  ({[ "2" := other_entry ]} : gmap string pyval) !! pretty 1 = None ∧
  (get_last_forecast 1 other_store).2 = other_store ∧
  (get_last_forecast 1 other_store).1 = Ok PNone.
Proof.
  assert (({[ "2" := other_entry ]} : gmap string pyval) !! pretty 1 = None) as Hk
    by (vm_compute; reflexivity).
  split; [reflexivity|]. split; [exact Hk|].
  split; [exact (proj1 (load_only_reads 1 other_store))|].
  exact (proj2 (load_only_reads 1 other_store) _ eq_refl Hk).
Defined.

Lemma save_replaces_unusable_file_witness :
  (∀ v, store_file corrupt_world ≠ FileDoc v) ∧
  py_get sample_api "daily" (PDict ∅) = Ok scenario_day ∧
  build_full_forecast_message sample_repr sample_api = Ok sample_text ∧
  save_last_forecast sample_repr WriteOk "2024-03-05T10:00:00" 42 sample_api corrupt_world
  = (Ok (), World (FileDoc (PDict {[ pretty 42 :=
                     cached_entry ("2024-03-05T10:00:00" +:+ "Z") scenario_day sample_text ]}))
              (outbox corrupt_world)).
Proof.
  assert (∀ v, store_file corrupt_world ≠ FileDoc v) as Hf by (intros v; discriminate).
  assert (py_get sample_api "daily" (PDict ∅) = Ok scenario_day) as Hd
    by (vm_compute; reflexivity).
  assert (build_full_forecast_message sample_repr sample_api = Ok sample_text) as Ht
    by (vm_compute; reflexivity).
  split; [exact Hf|]. split; [exact Hd|]. split; [exact Ht|].
  exact (save_replaces_unusable_file sample_repr "2024-03-05T10:00:00" 42 sample_api
           scenario_day sample_text corrupt_world Hf Hd Ht).
Defined.

Lemma last_save_wins_witness :
  WriteOk ≠ WriteBrokenOff ∧
  (save_last_forecast sample_repr WriteOk "2024-03-05T11:00:00" 2 sample_api other_store).1
  = Ok () ∧
  save_last_forecast sample_repr WriteOk "2024-03-05T11:00:00" 2 sample_api
    (save_last_forecast sample_repr WriteOk "2024-03-05T10:00:00" 2 (PDict ∅) other_store).2
  = save_last_forecast sample_repr WriteOk "2024-03-05T11:00:00" 2 sample_api other_store.
Proof.
  assert (WriteOk ≠ WriteBrokenOff) as Ho by discriminate.
  assert ((save_last_forecast sample_repr WriteOk "2024-03-05T11:00:00" 2 sample_api
             other_store).1 = Ok ()) as Hr by (vm_compute; reflexivity).
  split; [exact Ho|]. split; [exact Hr|].
  exact (last_save_wins sample_repr WriteOk "2024-03-05T10:00:00" "2024-03-05T11:00:00" 2
           (PDict ∅) sample_api other_store Ho Hr).
Defined.

Lemma lookups_after_two_saves_witness :
  1 ≠ 3 ∧ WriteOk ≠ WriteBrokenOff ∧ WriteRefused ≠ WriteBrokenOff ∧
  (get_last_forecast 1
     (save_last_forecast sample_repr WriteRefused "2024-03-05T11:00:00" 3 sample_api
        (save_last_forecast sample_repr WriteOk "2024-03-05T10:00:00" 1 sample_api
           other_store).2).2).1
  = (get_last_forecast 1
       (save_last_forecast sample_repr WriteOk "2024-03-05T10:00:00" 1 sample_api
          (save_last_forecast sample_repr WriteRefused "2024-03-05T11:00:00" 3 sample_api
             other_store).2).2).1.
Proof.
  assert (1 ≠ 3) as Hab by lia.
  assert (WriteOk ≠ WriteBrokenOff) as Ha by discriminate.
  assert (WriteRefused ≠ WriteBrokenOff) as Hb by discriminate.
  split; [exact Hab|]. split; [exact Ha|]. split; [exact Hb|].
  exact (lookups_after_two_saves sample_repr WriteOk WriteRefused
           "2024-03-05T10:00:00" "2024-03-05T11:00:00" 1 3 sample_api sample_api
           other_store 1 Hab Ha Hb).
Defined.


Lemma last_without_entry_witness :
  (get_last_forecast 42 empty_world).1 = Ok PNone ∧
  py_truthy PNone = false ∧
  btn_last_handler sample_repr 42 empty_world
  = (Ok (), World (store_file empty_world)
              (outbox empty_world ++
               [Message 42
                  "Нет сохранённого прогноза для этого чата. Нажми «🌤 Погода в Туле» чтобы получить текущий прогноз."
                  false (Some main_kb)])).
Proof.
  split; [reflexivity|]. split; [reflexivity|].
  exact (last_without_entry sample_repr 42 PNone empty_world eq_refl eq_refl).
Defined.

Lemma day_callback_bad_number_witness :
  ascii_only "tomorrow" = true ∧
  raises (py_int "tomorrow") ∧
  cb_day_callback sample_repr sample_env 42 ("day:" +:+ "tomorrow") other_store
  = (Ok (), World (store_file other_store)
              (outbox other_store ++ [Message 42 "Некорректная кнопка." false None])).
Proof.
  assert (raises (py_int "tomorrow")) as Hr by (exists ValueError; reflexivity).
  split; [reflexivity|]. split; [exact Hr|].
  exact (day_callback_bad_number sample_repr sample_env 42 "tomorrow" other_store eq_refl Hr).
Defined.

Lemma day_filter_payload_witness :
  is_day_callback "day:1:2" = true ∧
  ∃ idx_str, "day:1:2" = "day:" +:+ idx_str ∧ split_colon_once "day:1:2" = ["day"; idx_str].
Proof.
  assert (is_day_callback "day:1:2" = true) as Hf by reflexivity.
  split; [exact Hf|]. exact (day_filter_payload "day:1:2" Hf).
Defined.

Lemma day_callback_miss_fetch_failed_witness :
  py_int "0" = Ok 0 ∧
  (get_last_forecast 42 other_store).1 = Ok PNone ∧
  py_truthy PNone = false ∧
  (raises (get_weather (http (Environment RequestTimeout WriteOk "2024-03-05T10:00:00"))) ∨
   ∃ api_data,
     get_weather (http (Environment RequestTimeout WriteOk "2024-03-05T10:00:00")) = Ok api_data ∧
     raises (new_store sample_repr (store_file other_store)
               (utcnow (Environment RequestTimeout WriteOk "2024-03-05T10:00:00")) 42 api_data)) ∧
  cb_day_callback sample_repr (Environment RequestTimeout WriteOk "2024-03-05T10:00:00") 42
    ("day:" +:+ "0") other_store
  = (Ok (), World (store_file other_store)
              (outbox other_store
               ++ [Message 42 "Не удалось получить прогноз." false (Some main_kb)])).
Proof.
  assert ((get_last_forecast 42 other_store).1 = Ok PNone) as Hl by (vm_compute; reflexivity).
  assert (raises (get_weather (http (Environment RequestTimeout WriteOk "2024-03-05T10:00:00"))))
    as Hr by (exists Timeout; reflexivity).
  split; [reflexivity|]. split; [exact Hl|]. split; [reflexivity|]. split; [left; exact Hr|].
  exact (day_callback_miss_fetch_failed sample_repr
           (Environment RequestTimeout WriteOk "2024-03-05T10:00:00") 42 "0" 0 PNone other_store
           eq_refl Hl eq_refl (or_introl Hr)).
Defined.

Lemma day_callback_miss_fetched_witness :
  py_int "-2" = Ok (-2) ∧
  (get_last_forecast 42 empty_world).1 = Ok PNone ∧
  py_truthy PNone = false ∧
  get_weather (http sample_env) = Ok sample_api ∧
  new_store sample_repr (store_file empty_world) (utcnow sample_env) 42 sample_api
  = Ok (PDict {[ "42" := sample_entry ]}) ∧
  py_get sample_api "daily" (PDict ∅) = Ok scenario_day ∧
  cb_day_callback sample_repr sample_env 42 ("day:" +:+ "-2") empty_world
  = (Ok (), World (FileDoc (PDict {[ "42" := sample_entry ]}))
              [Message 42 "Не удалось получить прогноз." false (Some main_kb)]).
Proof.
  assert (py_int "-2" = Ok (-2)) as Hint by reflexivity.
  assert (new_store sample_repr (store_file empty_world) (utcnow sample_env) 42 sample_api
          = Ok (PDict {[ "42" := sample_entry ]})) as Hnew by (vm_compute; reflexivity).
  assert (py_get sample_api "daily" (PDict ∅) = Ok scenario_day) as Hd
    by (vm_compute; reflexivity).
  split; [exact Hint|]. split; [reflexivity|]. split; [reflexivity|]. split; [reflexivity|].
  split; [exact Hnew|]. split; [exact Hd|].
  exact (day_callback_miss_fetched sample_repr sample_env 42 "-2" (-2) PNone sample_api
           (PDict {[ "42" := sample_entry ]}) scenario_day empty_world
           Hint eq_refl eq_refl eq_refl Hnew Hd).
Defined.

Lemma day_callback_cached_below_range_witness :
  let cached := World (FileDoc (PDict {[ "42" := sample_entry ]})) [] in
  py_int "-2" = Ok (-2) ∧
  (get_last_forecast 42 cached).1 = Ok sample_entry ∧
  py_truthy sample_entry = true ∧
  py_get sample_entry "daily" (PDict ∅) = Ok (PDict scenario_fields) ∧
  default (PList []) (scenario_fields !! "time") = PList [PStr "2024-03-05"] ∧
  -2 < - Z.of_nat (length [PStr "2024-03-05"]) ∧
  cb_day_callback sample_repr sample_env 42 ("day:" +:+ "-2") cached = (Raise IndexError, cached).
Proof.
  cbv zeta.
  assert (py_int "-2" = Ok (-2)) as Hint by reflexivity.
  assert ((get_last_forecast 42 (World (FileDoc (PDict {[ "42" := sample_entry ]})) [])).1
          = Ok sample_entry) as Hl by (vm_compute; reflexivity).
  assert (py_truthy sample_entry = true) as Htrue by (vm_compute; reflexivity).
  assert (py_get sample_entry "daily" (PDict ∅) = Ok (PDict scenario_fields)) as Hd
    by (vm_compute; reflexivity).
  assert (default (PList []) (scenario_fields !! "time") = PList [PStr "2024-03-05"]) as Ht
    by (vm_compute; reflexivity).
  assert (-2 < - Z.of_nat (length [PStr "2024-03-05"])) as Hi by (cbn; lia).
  split; [exact Hint|]. split; [exact Hl|]. split; [exact Htrue|]. split; [exact Hd|].
  split; [exact Ht|]. split; [exact Hi|].
  exact (day_callback_cached_below_range sample_repr sample_env 42 "-2" (-2) sample_entry
           scenario_fields [PStr "2024-03-05"] _ Hint Hl Htrue Hd Ht Hi).
Defined.


Lemma weather_failed_save_witness :
  get_weather (http sample_env) = Ok sample_api ∧
  (save_last_forecast sample_repr (write sample_env) (utcnow sample_env) 42 sample_api
     array_store).1 = Raise TypeError ∧
  cmd_weather sample_repr sample_env 42 array_store
  = (Ok (), World (store_file array_store)
              (outbox array_store
               ++ [Message 42 "Не удалось получить прогноз. Попробуйте позже." false
                     (Some main_kb)])) ∧
  btn_weather_handler sample_repr sample_env 42 array_store
  = (Ok (), World (store_file array_store)
              (outbox array_store
               ++ [Message 42 "Не удалось получить прогноз. Попробуйте позже." false
                     (Some main_kb)])).
Proof.
  assert (get_weather (http sample_env) = Ok sample_api) as Hget by reflexivity.
  assert ((save_last_forecast sample_repr (write sample_env) (utcnow sample_env) 42 sample_api
             array_store).1 = Raise TypeError) as Hsave by (vm_compute; reflexivity).
  split; [exact Hget|]. split; [exact Hsave|].
  exact (weather_failed_save sample_repr sample_env 42 sample_api TypeError array_store
           Hget Hsave).
Defined.

Lemma day_callback_decimal_payload_witness :
  Z.abs (-1) < 10 ^ 4300 ∧
  (get_last_forecast 1 (World (FileDoc (PDict {[ "1" := sample_entry ]})) [])).1
  = Ok sample_entry ∧
  py_truthy sample_entry = true ∧
  py_get sample_entry "daily" (PDict ∅) = Ok scenario_day ∧
  is_day_callback ("day:" +:+ pretty (-1)) = true ∧
  cb_day_callback sample_repr sample_env 1 ("day:" +:+ pretty (-1))
    (World (FileDoc (PDict {[ "1" := sample_entry ]})) []) =
  match _build_day_block_from_daily sample_repr scenario_day (-1) (day_label (-1)) with
  | Ok block =>
      (Ok (), World (FileDoc (PDict {[ "1" := sample_entry ]}))
                ([] ++ [Message 1 block true (Some main_kb)]))
  | Raise e => (Raise e, World (FileDoc (PDict {[ "1" := sample_entry ]})) [])
  end.
Proof.
  assert (Z.abs (-1) < 10 ^ 4300) as Hz by (vm_compute; reflexivity).
  assert ((get_last_forecast 1 (World (FileDoc (PDict {[ "1" := sample_entry ]})) [])).1
          = Ok sample_entry) as Hlast by (vm_compute; reflexivity).
  assert (py_truthy sample_entry = true) as Ht by reflexivity.
  assert (py_get sample_entry "daily" (PDict ∅) = Ok scenario_day) as Hd
    by (vm_compute; reflexivity).
  split; [exact Hz|]. split; [exact Hlast|]. split; [exact Ht|]. split; [exact Hd|].
  exact (day_callback_decimal_payload sample_repr sample_env 1 (-1) sample_entry scenario_day
           (World (FileDoc (PDict {[ "1" := sample_entry ]})) []) Hz Hlast Ht Hd).
Defined.

Lemma non_object_daily_fails_witness :
  get_weather (http (Environment (Response 200 (Some (PDict {[ "daily" := PNone ]})))
                       WriteOk "2024-03-05T10:00:00"))
  = Ok (PDict {[ "daily" := PNone ]}) ∧
  ({[ "daily" := PNone ]} : gmap string pyval) !! "daily" = Some PNone ∧
  (∀ dd, PNone ≠ PDict dd) ∧
  build_full_forecast_message sample_repr (PDict {[ "daily" := PNone ]}) = Raise AttributeError ∧
  cmd_weather sample_repr
    (Environment (Response 200 (Some (PDict {[ "daily" := PNone ]}))) WriteOk "2024-03-05T10:00:00")
    42 other_store
  = (Ok (), World (store_file other_store)
              (outbox other_store
               ++ [Message 42 "Не удалось получить прогноз. Попробуйте позже." false (Some main_kb)])).
Proof.
  assert (∀ dd, PNone ≠ PDict dd) as Hno by (intros dd; discriminate).
  split; [reflexivity|]. split; [reflexivity|]. split; [exact Hno|].
  exact (non_object_daily_fails sample_repr
           (Environment (Response 200 (Some (PDict {[ "daily" := PNone ]}))) WriteOk
              "2024-03-05T10:00:00")
           42 {[ "daily" := PNone ]} PNone other_store eq_refl eq_refl Hno).
Defined.
